(** * AcctSolver: content assembly, intent prefixes and session persistence

    A shallow embedding of the client's logic:
    - [GeminiService] : the request builder of [sendMessageToGemini]
      (attachment classification, base64 handling, image responses);
    - [InputArea]     : media-type resolution of picked files and the three
      prefix toggles of the composer;
    - [App]           : the session state, its restore from [localStorage],
      [goHome], [resetChat], the autosave tick and the search filter.

    JavaScript strings are modelled by [string]; a character stands for one
    code unit in the range 0..255.  Platform functions the program calls but
    does not define ([atob], [TextDecoder.decode], [JSON.parse],
    [JSON.stringify], the backend) are section variables. *)

From Stdlib Require Import Ascii String List Bool Arith Lia.
From stdpp Require Import base option strings pretty gmap.
Import ListNotations.

Set Warnings "-register-all".

(** String concatenation computes on a literal first argument. *)
#[global] Arguments String.append !s1 s2 / : simpl nomatch.

(* ===================================================================== *)
(** ** JavaScript string primitives used by the program *)
(* ===================================================================== *)

Module JS.

(** Exceptions the modelled code can meet. *)
Inductive exn : Type :=
| InvalidCharacterError
| TypeError
| SyntaxError
| SecurityError
| BackendError.

(** Outcome of an expression that may throw. *)
Inductive result (A : Type) : Type :=
| Ok (a : A)
| Throw (e : exn).
Arguments Ok {A} a.
Arguments Throw {A} e.

Definition bind {A B} (r : result A) (k : A -> result B) : result B :=
  match r with
  | Ok a => k a
  | Throw e => Throw e
  end.

(** [try { body } catch (e) { handler e }] *)
Definition tryCatch {A} (body : result A) (handler : exn -> result A)
  : result A :=
  match body with
  | Ok a => Ok a
  | Throw e => handler e
  end.

Definition LF : string := String "010"%char EmptyString.

(** [s.startsWith(p)] *)
Fixpoint startsWith (s p : string) {struct p} : bool :=
  match p with
  | EmptyString => true
  | String a p' =>
      match s with
      | EmptyString => false
      | String b s' => Ascii.eqb a b && startsWith s' p'
      end
  end.

(** [s.substring(n)] *)
Fixpoint substring (s : string) (n : nat) {struct n} : string :=
  match n, s with
  | O, _ => s
  | S _, EmptyString => EmptyString
  | S n', String _ s' => substring s' n'
  end.

(** [s.includes(sub)] *)
Fixpoint includes (s sub : string) : bool :=
  startsWith s sub ||
  match s with
  | EmptyString => false
  | String _ s' => includes s' sub
  end.

(** [s.replace(pat, rep)] with a string pattern: the first occurrence
    only ([rep] contains no dollar pattern in this program). *)
Fixpoint replace (s pat rep : string) : string :=
  if startsWith s pat then rep +:+ substring s (String.length pat)
  else match s with
       | EmptyString => EmptyString
       | String c s' => String c (replace s' pat rep)
       end.

(** White space of [trim] among the code units 0..255:
    TAB, LF, VT, FF, CR, SPACE and NBSP. *)
Definition isWhiteSpace (c : ascii) : bool :=
  let n := nat_of_ascii c in
  ((9 <=? n) && (n <=? 13)) || (n =? 32) || (n =? 160).

Fixpoint trimStart (s : string) : string :=
  match s with
  | EmptyString => EmptyString
  | String c s' => if isWhiteSpace c then trimStart s' else s
  end.

Fixpoint trimEnd (s : string) : string :=
  match s with
  | EmptyString => EmptyString
  | String c s' =>
      match trimEnd s' with
      | EmptyString => if isWhiteSpace c then EmptyString
                       else String c EmptyString
      | t => String c t
      end
  end.

(** [s.trim()] *)
Definition trim (s : string) : string := trimEnd (trimStart s).

(** [s.split(sep)] for a one-character separator; never empty. *)
Fixpoint split (s : string) (sep : ascii) : list string :=
  match s with
  | EmptyString => [EmptyString]
  | String c s' =>
      if Ascii.eqb c sep then EmptyString :: split s' sep
      else match split s' sep with
           | seg :: rest => String c seg :: rest
           | [] => [String c EmptyString]
           end
  end.

(** [arr.pop()] as a value: the last element, [None] for [undefined]. *)
Definition pop {A} (arr : list A) : option A := last arr.

(** Lower-casing of one code unit: A-Z, and the Latin-1 capitals
    192..222 except the multiplication sign 215. *)
Definition lowerChar (c : ascii) : ascii :=
  let n := nat_of_ascii c in
  if ((65 <=? n) && (n <=? 90)) ||
     ((192 <=? n) && (n <=? 222) && negb (n =? 215))
  then ascii_of_nat (n + 32) else c.

(** [s.toLowerCase()] on a string of code units 0..255, where the lower
    case of a string is the lower case of each of its code units.  Beyond
    that range the lower case of a letter can depend on its neighbours (a
    final sigma) or change the length (a dotted capital I); such strings
    are outside this model, and every statement below that compares the
    lower case of two different strings holds for code units 0..255
    only. *)
Fixpoint toLowerCase (s : string) : string :=
  match s with
  | EmptyString => EmptyString
  | String c s' => String (lowerChar c) (toLowerCase s')
  end.

(** Truthiness of a string: non-empty. *)
Definition truthy (s : string) : bool :=
  match s with
  | EmptyString => false
  | String _ _ => true
  end.

End JS.

Notation "'let*' x ':=' e 'in' k" :=
  (JS.bind e (fun x => k))
  (at level 10, x name, e at level 100, k at level 200,
   format "'[v' 'let*'  x  ':='  e  'in' '/' k ']'").

(* ===================================================================== *)
(** ** services/geminiService.ts *)
(* ===================================================================== *)

Module GeminiService.
Import JS.

(** [Attachment] and [Message] of [types.ts], as the service reads them. *)
Record Attachment : Type := {
  data : string;
  mimeType : string;
  name : string
}.

Inductive Role : Type := user | model.

Record Message : Type := {
  id : string;
  role : Role;
  text : string;
  timestamp : Z;
  attachment : option Attachment;
  image : option string
}.

(** A [Part] of a request. *)
Inductive Part : Type :=
| TextPart (txt : string)
| InlineData (mime : string) (payload : string).

Record Content : Type := {
  content_role : Role;
  parts : list Part
}.

(** A part of a response: both fields are optional. *)
Record Blob : Type := {
  blob_mimeType : option string;
  blob_data : option string
}.

Record ResponsePart : Type := {
  inlineData : option Blob;
  part_text : option string
}.

(** What the code reads of a response:
    [response.candidates?.[0]?.content?.parts] and [response.text]. *)
Record GenerateContentResponse : Type := {
  candidate_parts : option (list ResponsePart);
  response_text : option string
}.

Record GeminiResponse : Type := {
  reply_text : string;
  generatedImage : option string
}.

(** The two requests the service sends: the single-turn image request
    (model [gemini-2.5-flash-image], aspect ratio 4:3) and the multi-turn
    chat request (model [gemini-2.5-flash], system instruction). *)
Inductive Request : Type :=
| ImageRequest (imagePrompt : string)
| ChatRequest (contents : list Content).

Definition isTextBased (mimeType : string) : bool :=
  startsWith mimeType "text/" ||
  String.eqb mimeType "application/json" ||
  String.eqb mimeType "application/xml" ||
  String.eqb mimeType "application/x-yaml" ||
  includes mimeType "csv" ||
  includes mimeType "script".

(** [v || d] for an optional string [v]. *)
Definition orElse (v : option string) (d : string) : string :=
  match v with
  | Some s => if truthy s then s else d
  | None => d
  end.

(** [data.split(',')[1] || data] *)
Definition base64Data (data : string) : string :=
  orElse (nth_error (split data ","%char) 1) data.

(** Interpolation of an optional string inside a template literal. *)
Definition interpolate (v : option string) : string :=
  match v with
  | Some s => s
  | None => "undefined"
  end.

Definition cannedImageText : string :=
  "Here is the visual representation you requested.".

(** One iteration of the loop over the parts of an image response. *)
Definition imageLoopBody (acc : string * option string) (part : ResponsePart)
  : string * option string :=
  let '(text, generatedImage) := acc in
  match inlineData part with
  | Some blob =>
      (text,
       Some ("data:" +:+ interpolate (blob_mimeType blob) +:+ ";base64," +:+
             interpolate (blob_data blob)))
  | None =>
      match part_text part with
      | Some t => if truthy t then (text +:+ t, generatedImage) else acc
      | None => acc
      end
  end.

Definition imageResult (response : GenerateContentResponse)
  : GeminiResponse :=
  let '(text, generatedImage) :=
    match candidate_parts response with
    | Some ps => fold_left imageLoopBody ps (EmptyString, None)
    | None => (EmptyString, None)
    end in
  {| reply_text := if truthy text then text else cannedImageText;
     generatedImage := generatedImage |}.

Definition chatResult (response : GenerateContentResponse)
  : GeminiResponse :=
  match response_text response with
  | Some t =>
      if truthy t then {| reply_text := t; generatedImage := None |}
      else {| reply_text := "I analyzed the input but couldn't generate a text response. Please try clarifying your question.";
              generatedImage := None |}
  | None =>
      {| reply_text := "I analyzed the input but couldn't generate a text response. Please try clarifying your question.";
         generatedImage := None |}
  end.

Definition errorResponse : GeminiResponse :=
  {| reply_text := "I encountered an error while processing your request. Please try again.";
     generatedImage := None |}.

Section Platform.
(** [atob] throws on malformed input; [TextDecoder.decode] is given the
    same latitude; the backend call may fail. *)
Variable atob : string -> result string.
Variable TextDecoder_decode : list Byte.byte -> result string.
Variable generateContent : Request -> result GenerateContentResponse.

Definition decodeBase64Text (base64 : string) : result string :=
  tryCatch
    (let* binaryString := atob base64 in
     let bytes := String.list_byte_of_string binaryString in
     TextDecoder_decode bytes)
    (fun _ => Ok EmptyString).

(** Body of [history.forEach]: the [Content] of one earlier message. *)
Definition historyContent (msg : Message) : result Content :=
  let* attached :=
    match attachment msg with
    | Some att =>
        let base64 := base64Data (data att) in
        if isTextBased (mimeType att) then
          let* textContent := decodeBase64Text base64 in
          Ok [TextPart ("[Attached File: " +:+ name att +:+ "]" +:+ LF +:+
                        textContent +:+ LF +:+ "[End of File]")]
        else
          Ok [TextPart ("[Attached File: " +:+ name att +:+ "]");
              InlineData (mimeType att) base64]
    | None =>
        match image msg with
        | Some img =>
            if truthy img then Ok [InlineData "image/jpeg" (base64Data img)]
            else Ok []
        | None => Ok []
        end
    end in
  Ok {| content_role := role msg; parts := attached ++ [TextPart (text msg)] |}.

Fixpoint historyContents (history : list Message) : result (list Content) :=
  match history with
  | [] => Ok []
  | msg :: rest =>
      let* c := historyContent msg in
      let* cs := historyContents rest in
      Ok (c :: cs)
  end.

(** The [Content] of the message being sent. *)
Definition currentContent (prompt : string) (attachment : option Attachment)
  : result Content :=
  let* currentParts :=
    match attachment with
    | Some att =>
        let base64 := base64Data (data att) in
        if isTextBased (mimeType att) then
          let* textContent := decodeBase64Text base64 in
          Ok [TextPart ("[Attached File: " +:+ name att +:+ "]" +:+ LF +:+
                        textContent +:+ LF +:+ "[End of File]" +:+ LF +:+ LF)]
        else
          Ok [TextPart ("[Attached File: " +:+ name att +:+ "]");
              InlineData (mimeType att) base64]
    | None => Ok []
    end in
  Ok {| content_role := user; parts := currentParts ++ [TextPart prompt] |}.

(** The request [sendMessageToGemini] hands to the backend. *)
Definition buildRequest (prompt : string) (history : list Message)
    (attachment : option Attachment) : result Request :=
  if startsWith prompt "Generate Image:" then
    let imagePrompt := trim (replace prompt "Generate Image:" EmptyString) in
    Ok (ImageRequest imagePrompt)
  else
    let* contents := historyContents history in
    let* current := currentContent prompt attachment in
    Ok (ChatRequest (contents ++ [current])).

Definition readResponse (request : Request)
    (response : GenerateContentResponse) : GeminiResponse :=
  match request with
  | ImageRequest _ => imageResult response
  | ChatRequest _ => chatResult response
  end.

Definition sendMessageToGemini (prompt : string) (history : list Message)
    (attachment : option Attachment) : result GeminiResponse :=
  tryCatch
    (let* request := buildRequest prompt history attachment in
     let* response := generateContent request in
     Ok (readResponse request response))
    (fun _ => Ok errorResponse).

End Platform.

End GeminiService.

(* ===================================================================== *)
(** ** components/InputArea.tsx *)
(* ===================================================================== *)

Module InputArea.
Import JS.

(** What [handleFileSelect] reads of the picked [File]. *)
Record File : Type := {
  file_type : string;
  file_name : string
}.

(** [file.name.split('.').pop()?.toLowerCase()] *)
Definition fileExt (fileName : string) : option string :=
  option_map toLowerCase (pop (split fileName "."%char)).

(** The [switch (ext)] of [handleFileSelect]; [None] when no case fires. *)
Definition switchExt (ext : option string) : option string :=
  match ext with
  | None => None
  | Some e =>
      if String.eqb e "csv" then Some "text/csv"
      else if String.eqb e "md" then Some "text/markdown"
      else if String.eqb e "json" then Some "application/json"
      else if String.eqb e "pdf" then Some "application/pdf"
      else if String.eqb e "txt" then Some "text/plain"
      else if String.eqb e "tsv" then Some "text/tab-separated-values"
      else if String.eqb e "xml" then Some "text/xml"
      else if String.eqb e "yml" then Some "text/yaml"
      else if String.eqb e "yaml" then Some "text/yaml"
      else None
  end.

(** The media type [reader.onloadend] stores in the attachment. *)
Definition resolveMimeType (file : File) : string :=
  let mimeType := file_type file in
  let ext := fileExt (file_name file) in
  let mimeType :=
    if negb (truthy mimeType) || String.eqb mimeType "application/octet-stream"
    then match switchExt ext with
         | Some t => t
         | None => mimeType
         end
    else mimeType in
  if truthy mimeType then mimeType else "application/octet-stream".

(** The attachment [handleFileSelect] selects; [readerResult] is the data
    URL produced by [readAsDataURL]. *)
Definition handleFileSelect (file : File) (readerResult : string)
  : GeminiService.Attachment :=
  {| GeminiService.data := readerResult;
     GeminiService.mimeType := resolveMimeType file;
     GeminiService.name := file_name file |}.

(** The [prefixesToRemove.forEach] loop. *)
Definition removePrefixes (prefixesToRemove : list string) (inputText : string)
  : string :=
  fold_left
    (fun newText p =>
       if startsWith newText p then substring newText (String.length p)
       else newText)
    prefixesToRemove inputText.

(** Common body of the three click handlers: the new draft text. *)
Definition togglePrefix (prefix : string) (prefixesToRemove : list string)
    (inputText : string) : string :=
  let newText := removePrefixes prefixesToRemove inputText in
  if startsWith newText prefix
  then substring newText (String.length prefix)
  else prefix +:+ newText.

Definition handleExplainClick : string -> string :=
  togglePrefix "Explain the concept of " ["Exam Note: "; "Generate Image: "].

Definition handleExamModeClick : string -> string :=
  togglePrefix "Exam Note: " ["Explain the concept of "; "Generate Image: "].

Definition handleChartClick : string -> string :=
  togglePrefix "Generate Image: " ["Explain the concept of "; "Exam Note: "].

(** The three intents of the composer, their prefix and their handler. *)
Inductive Intent : Type := Explain | ExamNote | GenerateImage.

Definition intentPrefix (i : Intent) : string :=
  match i with
  | Explain => "Explain the concept of "
  | ExamNote => "Exam Note: "
  | GenerateImage => "Generate Image: "
  end.

Definition toggle (i : Intent) : string -> string :=
  match i with
  | Explain => handleExplainClick
  | ExamNote => handleExamModeClick
  | GenerateImage => handleChartClick
  end.

End InputArea.

(* ===================================================================== *)
(** ** App.tsx *)
(* ===================================================================== *)

Module App.
Import JS.

Definition STORAGE_KEY : string := "acctsolver_chat_state".

(** Values met when the snapshot is read back: the result of
    [JSON.parse] is untyped, so the restore is modelled over JavaScript
    values.  [JDate arg] is the object [new Date(arg)]. *)
Inductive JSValue : Type :=
| JUndefined
| JNull
| JBool (b : bool)
| JNumber (n : Z)
| JString (s : string)
| JArray (elems : list JSValue)
| JObject (props : list (string * JSValue))
| JDate (arg : JSValue).

Fixpoint lookupProp (k : string) (props : list (string * JSValue)) : JSValue :=
  match props with
  | [] => JUndefined
  | (k', v) :: rest => if String.eqb k k' then v else lookupProp k rest
  end.

(** Assignment of a property inside an object literal. *)
Fixpoint setProp (k : string) (v : JSValue) (props : list (string * JSValue))
  : list (string * JSValue) :=
  match props with
  | [] => [(k, v)]
  | (k', v') :: rest =>
      if String.eqb k k' then (k, v) :: rest else (k', v') :: setProp k v rest
  end.

Fixpoint chars (s : string) : list JSValue :=
  match s with
  | EmptyString => []
  | String c s' => JString (String c EmptyString) :: chars s'
  end.

Definition indexed (vs : list JSValue) : list (string * JSValue) :=
  imap (fun i v => (pretty i, v)) vs.

(** The own enumerable properties copied by a spread [{...v}]. *)
Definition ownProps (v : JSValue) : list (string * JSValue) :=
  match v with
  | JObject props => props
  | JArray elems => indexed elems
  | JString s => indexed (chars s)
  | _ => []
  end.

(** The property reads [v.messages] and [v.timestamp]: a [TypeError] on
    [null] and [undefined], otherwise the own property or [undefined]. *)
Definition getProp (v : JSValue) (k : string) : result JSValue :=
  match v with
  | JUndefined | JNull => Throw TypeError
  | _ => Ok (lookupProp k (ownProps v))
  end.

Fixpoint mapM {A B} (f : A -> result B) (l : list A) : result (list B) :=
  match l with
  | [] => Ok []
  | a :: rest =>
      let* b := f a in
      let* bs := mapM f rest in
      Ok (b :: bs)
  end.

(** [v.map(f)]: only an array has a callable [map] after [JSON.parse]. *)
Definition arrayMap (f : JSValue -> result JSValue) (v : JSValue)
  : result (list JSValue) :=
  match v with
  | JArray elems => mapM f elems
  | _ => Throw TypeError
  end.

(** The session state.  Every path that builds it gives [messages] an
    array and [isLoading] a boolean; [selectedSubject] and the remaining
    properties are whatever a spread carried over. *)
Record ChatState : Type := {
  messages : list JSValue;
  isLoading : bool;
  selectedSubject : JSValue;
  extra : list (string * JSValue)
}.

Definition defaultState : ChatState :=
  {| messages := []; isLoading := false; selectedSubject := JNull; extra := [] |}.

Definition isStateKey (k : string) : bool :=
  String.eqb k "messages" || String.eqb k "isLoading" ||
  String.eqb k "selectedSubject".

(** [{ ...msg, timestamp: new Date(msg.timestamp) }] *)
Definition restoreMessage (msg : JSValue) : result JSValue :=
  let* stamp := getProp msg "timestamp" in
  Ok (JObject (setProp "timestamp" (JDate stamp) (ownProps msg))).

(** [{ ...parsed, messages, isLoading: false }] *)
Definition restoredState (parsed : JSValue) (msgs : list JSValue) : ChatState :=
  {| messages := msgs;
     isLoading := false;
     selectedSubject := lookupProp "selectedSubject" (ownProps parsed);
     extra := List.filter (fun kv => negb (isStateKey (fst kv))) (ownProps parsed) |}.

Section Json.
Variable JSON_parse : string -> result JSValue.
Variable JSON_stringify : ChatState -> string.

(** The [try] block of the state initializer; [read] is the outcome of
    [localStorage.getItem(STORAGE_KEY)].  [None]: no [return] reached. *)
Definition loadState (read : result (option string))
  : result (option ChatState) :=
  let* saved := read in
  match saved with
  | Some s =>
      if truthy s then
        let* parsed := JSON_parse s in
        let* stored := getProp parsed "messages" in
        let* msgs := arrayMap restoreMessage stored in
        Ok (Some (restoredState parsed msgs))
      else Ok None
  | None => Ok None
  end.

(** The [useState] initializer. *)
Definition initialState (read : result (option string)) : ChatState :=
  match tryCatch (loadState read) (fun _ => Ok None) with
  | Ok (Some st) => st
  | _ => defaultState
  end.

(** The running client: session state, search box, durable storage. *)
Record World : Type := {
  state : ChatState;
  searchTerm : string;
  localStorage : gmap string string
}.

(** Start of a run on a given storage. *)
Definition startup (storage : gmap string string) : World :=
  {| state := initialState (Ok (storage !! STORAGE_KEY));
     searchTerm := EmptyString;
     localStorage := storage |}.

(** One firing of the autosave interval. *)
Definition autosaveTick (w : World) : World :=
  if 0 <? length (messages (state w)) then
    {| state := state w;
       searchTerm := searchTerm w;
       localStorage := <[STORAGE_KEY := JSON_stringify (state w)]> (localStorage w) |}
  else w.

(** [resetChat]; [confirmed] is the answer to [window.confirm]. *)
Definition resetChat (confirmed : bool) (w : World) : World :=
  if confirmed then
    {| state := defaultState;
       searchTerm := EmptyString;
       localStorage := delete STORAGE_KEY (localStorage w) |}
  else w.

Definition goHome (w : World) : World :=
  {| state := {| messages := [];
                 isLoading := isLoading (state w);
                 selectedSubject := JNull;
                 extra := extra (state w) |};
     searchTerm := EmptyString;
     localStorage := localStorage w |}.

End Json.

(** Step 2 of [handleSendMessage]: the prompt given to the service, with
    [selectedSubject] as [ChatState] types it (a string or [null]). *)
Definition promptContext (selectedSubject : option string) (text : string)
  : string :=
  match selectedSubject with
  | Some subject =>
      if truthy subject then "[Subject: " +:+ subject +:+ "] " +:+ text
      else text
  | None => text
  end.

(** [displayedMessages] *)
Definition displayedMessages (messages : list GeminiService.Message)
    (searchTerm : string) : list GeminiService.Message :=
  if truthy (trim searchTerm) then
    List.filter
      (fun msg => includes (toLowerCase (GeminiService.text msg))
                           (toLowerCase searchTerm))
      messages
  else messages.

End App.

(* ===================================================================== *)
(** ** Concrete platform functions, for running the model on examples *)
(* ===================================================================== *)

Module Browser.
Import JS.

(** Value of a character of the base64 alphabet. *)
Definition base64Value (c : ascii) : option N :=
  let n := N_of_ascii c in
  if (65 <=? n)%N && (n <=? 90)%N then Some (n - 65)%N
  else if (97 <=? n)%N && (n <=? 122)%N then Some (n - 71)%N
  else if (48 <=? n)%N && (n <=? 57)%N then Some (n + 4)%N
  else if (n =? 43)%N then Some 62%N
  else if (n =? 47)%N then Some 63%N
  else None.

Fixpoint base64Values (cs : list ascii) : option (list N) :=
  match cs with
  | [] => Some []
  | c :: rest =>
      match base64Value c, base64Values rest with
      | Some v, Some vs => Some (v :: vs)
      | _, _ => None
      end
  end.

Fixpoint decodeSextets (vs : list N) : list ascii :=
  match vs with
  | a :: b :: c :: d :: rest =>
      let n := (((a * 64 + b) * 64 + c) * 64 + d)%N in
      ascii_of_N (n / 65536) :: ascii_of_N ((n / 256) mod 256) ::
      ascii_of_N (n mod 256) :: decodeSextets rest
  | [a; b; c] =>
      let n := ((a * 64 + b) * 64 + c)%N in
      [ascii_of_N (n / 1024); ascii_of_N ((n / 4) mod 256)]
  | [a; b] => [ascii_of_N ((a * 64 + b) / 16)]
  | _ => []
  end.

Definition isBase64Space (c : ascii) : bool :=
  let n := nat_of_ascii c in
  (n =? 9) || (n =? 10) || (n =? 12) || (n =? 13) || (n =? 32).

Definition isPad (c : ascii) : bool := Ascii.eqb c "="%char.

(** Removal of one or two trailing pad characters. *)
Definition stripPadding (cs : list ascii) : list ascii :=
  match rev cs with
  | p1 :: p2 :: rest =>
      if isPad p1 then (if isPad p2 then rev rest else rev (p2 :: rest))
      else cs
  | _ => cs
  end.

(** [atob], after the forgiving-base64 decoding of the HTML standard:
    white space is dropped, padding is removed when the length is a
    multiple of four, a length of 1 modulo 4 or a character outside the
    alphabet is an [InvalidCharacterError]. *)
Definition atob (input : string) : result string :=
  let cs := List.filter (fun c => negb (isBase64Space c))
                        (list_ascii_of_string input) in
  let cs := if length cs mod 4 =? 0 then stripPadding cs else cs in
  if length cs mod 4 =? 1 then Throw InvalidCharacterError
  else match base64Values cs with
       | Some vs => Ok (string_of_list_ascii (decodeSextets vs))
       | None => Throw InvalidCharacterError
       end.

(** A decoder for examples: one character per byte, which is what UTF-8
    decoding gives on bytes below 128. *)
Definition decodeBytes (bytes : list Byte.byte) : result string :=
  Ok (String.string_of_list_byte bytes).

(** A CSV attachment as the file picker stores it: the data URL of the two
    lines "a,b" and "1,2". *)
Definition sampleCsv : GeminiService.Attachment :=
  {| GeminiService.data := "data:text/csv;base64,YSxiCjEsMg==";
     GeminiService.mimeType := "text/csv";
     GeminiService.name := "t.csv" |}.

Definition sampleCsvText : string := "a,b" +:+ LF +:+ "1,2".

(** An image response with two inline images and no text. *)
Definition twoImages : GeminiService.GenerateContentResponse :=
  {| GeminiService.candidate_parts :=
       Some [ {| GeminiService.inlineData :=
                   Some {| GeminiService.blob_mimeType := Some "image/png";
                           GeminiService.blob_data := Some "AAAA" |};
                 GeminiService.part_text := None |};
              {| GeminiService.inlineData :=
                   Some {| GeminiService.blob_mimeType := Some "image/png";
                           GeminiService.blob_data := Some "BBBB" |};
                 GeminiService.part_text := None |} ];
     GeminiService.response_text := None |}.

(** An image response with a caption around one inline image. *)
Definition captionedImage : list GeminiService.ResponsePart :=
  [ {| GeminiService.inlineData := None;
       GeminiService.part_text := Some "Expenses " |};
    {| GeminiService.inlineData :=
         Some {| GeminiService.blob_mimeType := Some "image/png";
                 GeminiService.blob_data := Some "AAAA" |};
       GeminiService.part_text := None |};
    {| GeminiService.inlineData := None;
       GeminiService.part_text := Some "by category" |} ].

(** A message of the conversation, for the search examples. *)
Definition sampleUserMessage : GeminiService.Message :=
  {| GeminiService.id := "m1";
     GeminiService.role := GeminiService.user;
     GeminiService.text := "Depreciation";
     GeminiService.timestamp := 0%Z;
     GeminiService.attachment := None;
     GeminiService.image := None |}.

(** A backend for examples: it answers an image request with one inline
    image and no text, and fails on a chat request. *)
Definition imageBackend (request : GeminiService.Request)
  : result GeminiService.GenerateContentResponse :=
  match request with
  | GeminiService.ImageRequest _ =>
      Ok {| GeminiService.candidate_parts :=
              Some [ {| GeminiService.inlineData :=
                          Some {| GeminiService.blob_mimeType := Some "image/png";
                                  GeminiService.blob_data := Some "iVBORw0KGgo=" |};
                        GeminiService.part_text := None |} ];
            GeminiService.response_text := None |}
  | GeminiService.ChatRequest _ => Throw BackendError
  end.

(** A stored session of one message, and a [JSON.parse] for examples that
    reads the one text [sampleText] as that session, saved while a request
    was in flight. *)
Definition sampleMessage : App.JSValue :=
  App.JObject [("id", App.JString "m1");
               ("role", App.JString "user");
               ("text", App.JString "What is depreciation?");
               ("timestamp", App.JString "2024-05-01T10:00:00.000Z")].

Definition sampleSnapshot : App.JSValue :=
  App.JObject [("messages", App.JArray [sampleMessage]);
               ("isLoading", App.JBool true);
               ("selectedSubject", App.JString "Taxation")].

Definition sampleText : string := "snapshot#1".

Definition parseSample (s : string) : result App.JSValue :=
  if String.eqb s sampleText then Ok sampleSnapshot else Throw SyntaxError.

Definition stringifySample (_ : App.ChatState) : string := sampleText.

End Browser.

(* ===================================================================== *)
(** ** Specification-side notions the statements are phrased with *)
(* ===================================================================== *)

Module Spec.
Import JS.

(** [sub] occurs in [s]. *)
Definition occursIn (sub s : string) : Prop :=
  exists pre post, s = pre +:+ sub +:+ post.

(** [term] occurs in [s], letter case ignored. *)
Definition containsIgnoringCase (s term : string) : Prop :=
  occursIn (toLowerCase term) (toLowerCase s).

(** [out] is [l] with exactly the elements satisfying [P] kept, in the
    order of [l]. *)
Inductive Kept {A} (P : A -> Prop) : list A -> list A -> Prop :=
| Kept_nil : Kept P [] []
| Kept_take x l out : P x -> Kept P l out -> Kept P (x :: l) (x :: out)
| Kept_skip x l out : ~ P x -> Kept P l out -> Kept P (x :: l) out.

(** The text parts of an image response, in order: the parts that carry
    no inline data, with their text (nothing for a missing text). *)
Definition textParts (ps : list GeminiService.ResponsePart) : list string :=
  omap (fun p => match GeminiService.inlineData p with
                 | Some _ => None
                 | None => GeminiService.part_text p
                 end) ps.

(** The inline images of an image response, in order, as data URLs. *)
Definition inlineImages (ps : list GeminiService.ResponsePart) : list string :=
  omap (fun p => match GeminiService.inlineData p with
                 | Some blob =>
                     Some ("data:" +:+
                           GeminiService.interpolate (GeminiService.blob_mimeType blob) +:+
                           ";base64," +:+
                           GeminiService.interpolate (GeminiService.blob_data blob))
                 | None => None
                 end) ps.

Fixpoint concat (l : list string) : string :=
  match l with
  | [] => EmptyString
  | s :: rest => s +:+ concat rest
  end.

(** The extension table of the specification. *)
Definition extensionTable : list (string * string) :=
  [("csv", "text/csv"); ("md", "text/markdown"); ("json", "application/json");
   ("pdf", "application/pdf"); ("txt", "text/plain");
   ("tsv", "text/tab-separated-values"); ("xml", "text/xml");
   ("yml", "text/yaml"); ("yaml", "text/yaml")].

(** The part of [s] after its first comma, if it has one. *)
Fixpoint afterFirstComma (s : string) : option string :=
  match s with
  | EmptyString => None
  | String c s' => if Ascii.eqb c ","%char then Some s' else afterFirstComma s'
  end.

(** The payload the specification passes on. *)
Definition specPayload (s : string) : string :=
  match afterFirstComma s with
  | Some rest => rest
  | None => s
  end.

(** The text that wraps the decoded content [c] of the file [n]. *)
Definition fileBlock (n c : string) : string :=
  "[Attached File: " +:+ n +:+ "]" +:+ LF +:+ c +:+ LF +:+ "[End of File]".

(** [m'] is the stored message [m] with its [timestamp] rebuilt as a
    date from the stored one, every other property unchanged. *)
Definition Reconstructed (m m' : App.JSValue) : Prop :=
  exists props,
    m' = App.JObject props /\
    App.lookupProp "timestamp" props
      = App.JDate (App.lookupProp "timestamp" (App.ownProps m)) /\
    forall k, k <> "timestamp" ->
              App.lookupProp k props = App.lookupProp k (App.ownProps m).

(** The three prefixes the composer recognises. *)
Definition recognizedPrefixes : list string :=
  ["Explain the concept of "; "Exam Note: "; "Generate Image: "].

(** [d] without one leading [p], when it starts with [p]. *)
Definition stripOne (p d : string) : string :=
  if startsWith d p then substring d (String.length p) else d.

(** [c] does not occur in [s]. *)
Fixpoint freeOf (c : ascii) (s : string) : bool :=
  match s with
  | EmptyString => true
  | String c' s' => negb (Ascii.eqb c' c) && freeOf c s'
  end.

(** The extension of a file name as the words of the specification have
    it: the text after the last dot, and none for a name without a dot. *)
Fixpoint extensionOf (name : string) : option string :=
  match name with
  | EmptyString => None
  | String c rest =>
      match extensionOf rest with
      | Some e => Some e
      | None => if Ascii.eqb c "."%char then Some rest else None
      end
  end.

(** [b] carries every property of [a] but the timestamp: the relation
    between a message on the screen and its stored or restored form, whose
    timestamp is written as text and rebuilt as a date. *)
Definition SameButTimestamp (a b : App.JSValue) : Prop :=
  forall k, k <> "timestamp" ->
            App.lookupProp k (App.ownProps b) = App.lookupProp k (App.ownProps a).

End Spec.

(* ===================================================================== *)
(** ** services/geminiService.ts: text extraction from an image *)
(* ===================================================================== *)

Module GeminiOcr.
Import JS GeminiService.

Definition ocrInstruction : string :=
  "Perform OCR: Transcribe all text from this image exactly as it appears. Return ONLY the extracted text, no introductory or concluding remarks. If there is no legible text, say so.".

Section Backend.
(** The backend call on the single-turn request of [extractTextFromImage]
    (model [gemini-2.5-flash], no configuration), given its parts. *)
Variable generateContent : list Part -> result GenerateContentResponse.

Definition extractTextFromImage (base64Image : string) : result string :=
  tryCatch
    (let base64 := base64Data base64Image in
     let* response :=
       generateContent [InlineData "image/jpeg" base64; TextPart ocrInstruction] in
     Ok (orElse (response_text response) EmptyString))
    (fun _ => Ok EmptyString).

End Backend.

End GeminiOcr.

(* ===================================================================== *)
(** ** components/InputArea.tsx: the state of the composer *)
(* ===================================================================== *)

Module Composer.
Import JS GeminiService.

(** [s.endsWith(p)] *)
Fixpoint endsWith (s p : string) : bool :=
  String.eqb s p ||
  match s with
  | EmptyString => false
  | String _ s' => endsWith s' p
  end.

(** The [useState] cells of [InputArea] the handlers below touch. *)
Record State : Type := {
  inputText : string;
  selectedAttachment : option Attachment;
  isExtracting : bool
}.

(** One entry of [event.results]: [isFinal] and [[0].transcript]. *)
Record SpeechResult : Type := {
  isFinal : bool;
  transcript : string
}.

(** The [for] loop of [recognition.onresult]. *)
Definition finalTranscript (resultIndex : nat) (results : list SpeechResult)
  : string :=
  fold_left
    (fun acc r => if isFinal r then acc +:+ transcript r else acc)
    (drop resultIndex results) EmptyString.

(** The update [setInputText(prev => ...)] of [recognition.onresult]. *)
Definition appendTranscript (finalText prev : string) : string :=
  let needsSpace := (0 <? String.length prev) && negb (endsWith prev " ") in
  prev +:+ (if needsSpace then " " else EmptyString) +:+ finalText.

(** [recognition.onresult] as a change of the draft. *)
Definition onresult (resultIndex : nat) (results : list SpeechResult)
    (st : State) : State :=
  let finalText := finalTranscript resultIndex results in
  if truthy finalText then
    {| inputText := appendTranscript finalText (inputText st);
       selectedAttachment := selectedAttachment st;
       isExtracting := isExtracting st |}
  else st.

(** The guard of [handleScan]: the data to extract from, when it runs. *)
Definition scanTarget (st : State) : option string :=
  match selectedAttachment st with
  | None => None
  | Some att =>
      if negb (startsWith (mimeType att) "image") || isExtracting st then None
      else Some (data att)
  end.

(** The update [setInputText(prev => ...)] of [handleScan]. *)
Definition appendScanned (scanned prev : string) : string :=
  (if truthy prev then prev +:+ LF +:+ LF else EmptyString) +:+ scanned.

(** The [try]/[catch]/[finally] of [handleScan], on the state [st] the
    composer has when the extraction settles with [outcome]. *)
Definition scanSettled (outcome : result string) (st : State) : State :=
  {| inputText :=
       match outcome with
       | Ok scanned =>
           if truthy scanned then appendScanned scanned (inputText st)
           else inputText st
       | Throw _ => inputText st
       end;
     selectedAttachment := selectedAttachment st;
     isExtracting := false |}.

Section Scan.
Variable onExtractText : string -> result string.

(** [handleScan] with no other event before the extraction settles. *)
Definition handleScan (st : State) : State :=
  match scanTarget st with
  | None => st
  | Some image =>
      scanSettled (onExtractText image)
        {| inputText := inputText st;
           selectedAttachment := selectedAttachment st;
           isExtracting := true |}
  end.

End Scan.

End Composer.

(* ===================================================================== *)
(** ** App.tsx: sending a message *)
(* ===================================================================== *)

Module Conversation.
Import JS GeminiService.

(** [ChatState] as [types.ts] declares it; [App] above sees the same
    object untyped when it comes back from storage. *)
Record ChatState : Type := {
  messages : list Message;
  isLoading : bool;
  selectedSubject : option string
}.


(** [userMsg]; [uuid] and [now] are the results of [uuidv4()] and
    [new Date()]. *)
Definition userMessage (uuid : string) (now : Z) (text : string)
    (attachment : option Attachment) : Message :=
  {| id := uuid; role := user; text := text; timestamp := now;
     attachment := attachment; image := None |}.

(** [aiMsg] *)
Definition aiMessage (uuid : string) (now : Z) (response : GeminiResponse)
  : Message :=
  {| id := uuid; role := model; text := reply_text response; timestamp := now;
     attachment := None; image := generatedImage response |}.

(** The first [setState] of [handleSendMessage]. *)
Definition appendUser (userMsg : Message) (prev : ChatState) : ChatState :=
  {| messages := messages prev ++ [userMsg];
     isLoading := true;
     selectedSubject := selectedSubject prev |}.

(** The second [setState] of [handleSendMessage]. *)
Definition appendReply (aiMsg : Message) (prev : ChatState) : ChatState :=
  {| messages := messages prev ++ [aiMsg];
     isLoading := false;
     selectedSubject := selectedSubject prev |}.

Definition handleSubjectSelect (subjectName : string) (prev : ChatState)
  : ChatState :=
  {| messages := messages prev;
     isLoading := isLoading prev;
     selectedSubject := Some subjectName |}.

Section Platform.
Variable atob : string -> result string.
Variable TextDecoder_decode : list Byte.byte -> result string.
Variable generateContent : Request -> result GenerateContentResponse.

(** Steps 2 and 3 of [handleSendMessage]: the call of the service, made
    with the history and the subject of the state [st] of the render. *)
Definition callService (st : ChatState) (text : string)
    (attachment : option Attachment) : result GeminiResponse :=
  sendMessageToGemini atob TextDecoder_decode generateContent
    (App.promptContext (selectedSubject st) text) (messages st) attachment.

(** The request that call hands to the backend. *)
Definition requestOf (st : ChatState) (text : string)
    (attachment : option Attachment) : result Request :=
  buildRequest atob TextDecoder_decode
    (App.promptContext (selectedSubject st) text) (messages st) attachment.

(** [handleSendMessage] with no other event before the reply: the state
    once the function is done.  A rejected [await] would leave the state of
    the first [setState]. *)
Definition handleSendMessage (st : ChatState) (uuids : string * string)
    (clock : Z * Z) (text : string) (attachment : option Attachment)
  : ChatState :=
  let userMsg := userMessage (fst uuids) (fst clock) text attachment in
  let sent := appendUser userMsg st in
  match callService st text attachment with
  | Ok response => appendReply (aiMessage (snd uuids) (snd clock) response) sent
  | Throw _ => sent
  end.


End Platform.

End Conversation.

(* ===================================================================== *)
(** ** Notions and examples for the properties beyond the claims *)
(* ===================================================================== *)

Module Props.
Import JS GeminiService.

Definition isInline (part : Part) : bool :=
  match part with
  | InlineData _ _ => true
  | TextPart _ => false
  end.

(** Number of inline-data parts among [ps]. *)
Definition inlineCount (ps : list Part) : nat :=
  length (List.filter isInline ps).

(** Every character of [s] is white space. *)
Fixpoint blank (s : string) : bool :=
  match s with
  | EmptyString => true
  | String c s' => isWhiteSpace c && blank s'
  end.

(** The transcripts of the final results, in order. *)
Definition finalTranscripts (results : list Composer.SpeechResult) : list string :=
  List.map Composer.transcript (List.filter Composer.isFinal results).

(** A stored session whose second message is [null]. *)
Definition brokenSnapshot : App.JSValue :=
  App.JObject [("messages", App.JArray [Browser.sampleMessage; App.JNull]);
               ("isLoading", App.JBool false);
               ("selectedSubject", App.JNull)].

Definition brokenText : string := "snapshot#2".

Definition parseBroken (s : string) : result App.JSValue :=
  if String.eqb s brokenText then Ok brokenSnapshot else Throw SyntaxError.

(** A backend that always fails. *)
Definition failingBackend (_ : Request) : result GenerateContentResponse :=
  Throw BackendError.


(** A session of one exchange. *)
Definition sampleSession : Conversation.ChatState :=
  {| Conversation.messages :=
       [Browser.sampleUserMessage;
        {| id := "m2"; role := model; text := "It is the allocation of cost.";
           timestamp := 1%Z; attachment := None; image := None |}];
     Conversation.isLoading := false;
     Conversation.selectedSubject := None |}.

(** A picked PNG image, as the composer holds it. *)
Definition samplePng : Attachment :=
  {| data := "data:image/png;base64,iVBORw0KGgo=";
     mimeType := "image/png";
     name := "problem.png" |}.

(** A backend that reads "Dr Cash 500" off every image. *)
Definition readingBackend (_ : list Part) : result GenerateContentResponse :=
  Ok {| candidate_parts := None; response_text := Some "Dr Cash 500" |}.

(** A composer with a typed draft and the PNG attached. *)
Definition sampleComposer : Composer.State :=
  {| Composer.inputText := "Post this entry:";
     Composer.selectedAttachment := Some samplePng;
     Composer.isExtracting := false |}.

(** Speech results: an earlier final phrase, then a final and an interim
    one. *)
Definition sampleSpeech : list Composer.SpeechResult :=
  [ {| Composer.isFinal := true; Composer.transcript := "earlier" |};
    {| Composer.isFinal := true; Composer.transcript := "to the ledger" |};
    {| Composer.isFinal := false; Composer.transcript := " and" |} ].

End Props.

(* ===================================================================== *)
(** ** components/ChatMessage.tsx: highlighting the search term *)
(* ===================================================================== *)

Module ChatMessage.
Import JS.

(** The characters of the class [[.*+?^${}()|[\]\\]]: the syntax characters
    of a regular expression. *)
Definition isSyntaxChar (c : ascii) : bool :=
  existsb (Ascii.eqb c)
    ["."; "*"; "+"; "?"; "^"; "$"; "{"; "}"; "("; ")"; "|"; "["; "]"; "\"]%char.

(** [term.replace(/[.*+?^${}()|[\]\\]/g, '\\$&')] *)
Fixpoint escapeTerm (term : string) : string :=
  match term with
  | EmptyString => EmptyString
  | String c rest =>
      if isSyntaxChar c then String "\"%char (String c (escapeTerm rest))
      else String c (escapeTerm rest)
  end.

(** The source of the regular expression: the escaped term in a group. *)
Definition patternSource (term : string) : string :=
  "(" +:+ escapeTerm term +:+ ")".

(** What the group of the regular expression matches, read from the text
    after its opening parenthesis: an escaped syntax character or a
    character that is none stands for itself, and the unescaped closing
    parenthesis ends the source.  [None] outside that fragment. *)
Fixpoint literalBody (body : string) : option (list ascii) :=
  match body with
  | EmptyString => None
  | String c rest =>
      if Ascii.eqb c "\"%char then
        match rest with
        | String d rest' =>
            if isSyntaxChar d then option_map (cons d) (literalBody rest')
            else None
        | EmptyString => None
        end
      else if Ascii.eqb c ")"%char then
        match rest with
        | EmptyString => Some []
        | String _ _ => None
        end
      else if isSyntaxChar c then None
      else option_map (cons c) (literalBody rest)
  end.

(** The characters matched by the one group of [source]. *)
Definition literalGroup (source : string) : option (list ascii) :=
  match source with
  | String c inner => if Ascii.eqb c "("%char then literalBody inner else None
  | EmptyString => None
  end.

(** Two code units 0..255 match under the flag [i] when they are the same
    letter: on that range the canonical form of the flag (built on the
    upper case) and the lower case give the same classes.  Beyond it they
    differ (the Kelvin sign is lower-cased to k but is its own canonical
    form), and such code units are outside this model. *)
Definition sameLetter (a b : ascii) : bool :=
  Ascii.eqb (lowerChar a) (lowerChar b).

(** The pattern [atoms] matches at the start of [text], letter case
    ignored. *)
Fixpoint matchesAt (atoms : list ascii) (text : string) : bool :=
  match atoms with
  | [] => true
  | a :: atoms' =>
      match text with
      | EmptyString => false
      | String c rest => sameLetter a c && matchesAt atoms' rest
      end
  end.

(** The first [n] characters of [s]. *)
Fixpoint takeChars (n : nat) (s : string) : string :=
  match n, s with
  | S n', String c rest => String c (takeChars n' rest)
  | _, _ => EmptyString
  end.

(** [text.split(re)] for a global, case-insensitive expression that is
    one group around the non-empty literal [atoms]: the text between the
    matches, with each matched text in between.  [seg] is the text since the
    last match; [fuel] bounds the steps, one per character at most. *)
Fixpoint splitFrom (fuel : nat) (atoms : list ascii) (text seg : string)
  : list string :=
  match fuel with
  | O => [seg +:+ text]
  | S fuel' =>
      match text with
      | EmptyString => [seg]
      | String c rest =>
          if matchesAt atoms text then
            seg :: takeChars (length atoms) text ::
            splitFrom fuel' atoms (substring text (length atoms)) EmptyString
          else splitFrom fuel' atoms rest (seg +:+ String c EmptyString)
      end
  end.

Definition splitByGroup (atoms : list ascii) (text : string) : list string :=
  splitFrom (String.length text) atoms text EmptyString.

(** A piece of the rendered text: marked or plain. *)
Record Piece : Type := {
  marked : bool;
  piece : string
}.

(** [HighlightText]: the pieces it renders, in order. *)
Definition HighlightText (text term : string) : list Piece :=
  if negb (truthy term) || negb (truthy text) then
    [{| marked := false; piece := text |}]
  else
    match literalGroup (patternSource term) with
    | Some atoms =>
        List.map
          (fun part =>
             {| marked := String.eqb (toLowerCase part) (toLowerCase term);
                piece := part |})
          (splitByGroup atoms text)
    | None => [{| marked := false; piece := text |}]
    end.

(** What a user message shows under a search term. *)
Definition userText (text highlightTerm : string) : list Piece :=
  if truthy highlightTerm then HighlightText text highlightTerm
  else [{| marked := false; piece := text |}].

End ChatMessage.

(* ===================================================================== *)
(** ** App.tsx: the reply of a pending request *)
(* ===================================================================== *)

Module AppEvents.
Import JS App.

(** The second [setState] of [handleSendMessage], applied to the state the
    client has when the reply arrives; [aiMsg] is the message object. *)
Definition replyArrives (aiMsg : JSValue) (w : World) : World :=
  {| state := {| messages := messages (state w) ++ [aiMsg];
                 isLoading := false;
                 selectedSubject := selectedSubject (state w);
                 extra := extra (state w) |};
     searchTerm := searchTerm w;
     localStorage := localStorage w |}.

End AppEvents.

(* ===================================================================== *)
(** ** A session that is ahead of its snapshot *)
(* ===================================================================== *)

Module Scenarios.
Import JS App.

(** The question on the screen, as [handleSendMessage] builds it; its
    timestamp is a date (10:00:00 on 1 May 2024, in milliseconds). *)
Definition sampleQuestion : JSValue :=
  JObject [("id", JString "m1"); ("role", JString "user");
           ("text", JString "What is depreciation?");
           ("timestamp", JDate (JNumber 1714557600000))].

(** The client after the question was sent: the request is in flight and
    nothing is stored yet. *)
Definition sentWorld : World :=
  {| state := {| messages := [sampleQuestion];
                 isLoading := true;
                 selectedSubject := JString "Taxation";
                 extra := [] |};
     searchTerm := EmptyString;
     localStorage := ∅ |}.

(** The autosave fires: the storage holds the snapshot of the screen. *)
Definition savedWorld : World := autosaveTick Browser.stringifySample sentWorld.

(** The reply of the assistant, one minute later. *)
Definition sampleReply : JSValue :=
  JObject [("id", JString "m2"); ("role", JString "model");
           ("text", JString "Depreciation spreads the cost of an asset over its life.");
           ("timestamp", JDate (JNumber 1714557660000))].

(** The reply has arrived and the next autosave has not fired yet: the
    screen shows two messages, the storage still holds the snapshot with
    one. *)
Definition staleWorld : World := AppEvents.replyArrives sampleReply savedWorld.

End Scenarios.

(* ===================================================================== *)
(** ** Facts about the string primitives *)
(* ===================================================================== *)

Module JSFacts.
Import JS.

Lemma startsWith_app (p x : string) : startsWith (p +:+ x) p = true.
Proof.
  induction p as [|a p IH]; simpl.
  - reflexivity.
  - rewrite Ascii.eqb_refl. exact IH.
Qed.

Lemma substring_app (p x : string) : substring (p +:+ x) (String.length p) = x.
Proof. induction p as [|a p IH]; simpl; [reflexivity | exact IH]. Qed.

Lemma startsWith_split (s p : string) :
  startsWith s p = true -> s = p +:+ substring s (String.length p).
Proof.
  revert s. induction p as [|a p IH]; intros s H; simpl in *.
  - reflexivity.
  - destruct s as [|b s]; [discriminate|].
    apply andb_prop in H as [Hab Hp].
    apply Ascii.eqb_eq in Hab. subst b.
    simpl. f_equal. apply IH, Hp.
Qed.

Lemma startsWith_iff (s p : string) :
  startsWith s p = true <-> exists rest, s = p +:+ rest.
Proof.
  split.
  - intros H. eexists. apply startsWith_split, H.
  - intros [rest ->]. apply startsWith_app.
Qed.

Lemma replace_startsWith (s p : string) :
  startsWith s p = true ->
  replace s p EmptyString = substring s (String.length p).
Proof. intros H. destruct s; simpl in *; rewrite H; reflexivity. Qed.

Lemma append_nil_r (s : string) : s +:+ EmptyString = s.
Proof. induction s; simpl; congruence. Qed.

Lemma append_assoc (a b c : string) : (a +:+ b) +:+ c = a +:+ b +:+ c.
Proof. induction a; simpl; congruence. Qed.

(** [includes] decides occurrence as a substring. *)
Lemma includes_occursIn (s sub : string) :
  includes s sub = true <-> Spec.occursIn sub s.
Proof.
  unfold Spec.occursIn. split.
  - induction s as [|c s IH]; simpl; intros H.
    + rewrite orb_false_r in H. apply startsWith_iff in H as [rest ->].
      exists EmptyString, rest. reflexivity.
    + apply orb_prop in H as [H|H].
      * apply startsWith_iff in H as [rest Hr].
        exists EmptyString, rest. exact Hr.
      * destruct (IH H) as (pre & post & ->).
        exists (String c pre), post. reflexivity.
  - intros (pre & post & ->).
    induction pre as [|c pre IH]; simpl.
    + destruct (sub +:+ post) eqn:E; simpl.
      * rewrite <- E, startsWith_app. reflexivity.
      * rewrite <- E, startsWith_app. reflexivity.
    + rewrite IH. apply orb_true_r.
Qed.

Lemma includes_false (s sub : string) :
  includes s sub = false <-> ~ Spec.occursIn sub s.
Proof.
  rewrite <- includes_occursIn. destruct (includes s sub); split; intros H;
    try reflexivity; try discriminate; try congruence.
Qed.

Lemma split_nonempty (s : string) (sep : ascii) : split s sep <> [].
Proof.
  induction s as [|c s IH]; simpl; [discriminate|].
  destruct (Ascii.eqb c sep); [discriminate|].
  destruct (split s sep); [contradiction|discriminate].
Qed.

(** A string free of the separator is a single segment. *)
Lemma split_freeOf (s : string) (sep : ascii) :
  Spec.freeOf sep s = true -> split s sep = [s].
Proof.
  induction s as [|c s IH]; simpl; intros H; [reflexivity|].
  apply andb_prop in H as [Hc Hs].
  apply negb_true_iff in Hc. rewrite Hc, (IH Hs). reflexivity.
Qed.

(** The first segment ends at the first separator. *)
Lemma split_app (pre rest : string) (sep : ascii) :
  Spec.freeOf sep pre = true ->
  split (pre +:+ String sep rest) sep = pre :: split rest sep.
Proof.
  induction pre as [|c pre IH]; simpl; intros H.
  - rewrite Ascii.eqb_refl. reflexivity.
  - apply andb_prop in H as [Hc Hs].
    apply negb_true_iff in Hc. rewrite Hc, (IH Hs). reflexivity.
Qed.

Lemma split_app_last (stem ext : string) (sep : ascii) :
  Spec.freeOf sep ext = true ->
  exists first init,
    split (stem +:+ String sep ext) sep = first :: init ++ [ext].
Proof.
  intros H. induction stem as [|c stem (first & init & IH)]; simpl.
  - rewrite Ascii.eqb_refl, (split_freeOf _ _ H).
    exists EmptyString, []. reflexivity.
  - rewrite IH. destruct (Ascii.eqb c sep).
    + exists EmptyString, (first :: init). reflexivity.
    + exists (String c first), init. reflexivity.
Qed.

(** The last segment starts after the last separator. *)
Lemma last_split_app (stem ext : string) (sep : ascii) :
  Spec.freeOf sep ext = true ->
  pop (split (stem +:+ String sep ext) sep) = Some ext.
Proof.
  intros H. destruct (split_app_last stem ext sep H) as (first & init & ->).
  unfold pop. change (first :: init ++ [ext]) with ((first :: init) ++ [ext]).
  apply last_snoc.
Qed.

End JSFacts.

(* ===================================================================== *)
(** ** The prefix toggles of the composer *)
(* ===================================================================== *)

Section Toggles.
Import JS InputArea.

Lemma length_substring (s : string) (n : nat) :
  String.length (substring s n) = String.length s - n.
Proof.
  revert s. induction n as [|n IH]; intros s; simpl.
  - lia.
  - destruct s as [|c s]; simpl; [reflexivity|apply IH].
Qed.

Lemma length_append (a b : string) :
  String.length (a +:+ b) = String.length a + String.length b.
Proof. induction a as [|c a IH]; simpl; [reflexivity|rewrite IH; reflexivity]. Qed.

Lemma startsWith_length (s p : string) :
  startsWith s p = true -> String.length p <= String.length s.
Proof.
  intros H. apply JSFacts.startsWith_split in H.
  apply (f_equal String.length) in H. rewrite length_append in H. lia.
Qed.

Lemma nonempty_length (s : string) : s <> EmptyString -> 0 < String.length s.
Proof. destruct s; [contradiction|simpl; lia]. Qed.

(** The loop over [prefixesToRemove] only shortens the draft, and leaves
    its length alone exactly when neither prefix was at its head. *)
Lemma removePrefixes_length (q1 q2 s : string) :
  String.length (removePrefixes [q1; q2] s) <= String.length s.
Proof.
  unfold removePrefixes. cbn [fold_left].
  destruct (startsWith s q1); destruct (startsWith _ q2);
    rewrite ?length_substring; lia.
Qed.

Lemma removePrefixes_same_length (q1 q2 s : string) :
  q1 <> EmptyString -> q2 <> EmptyString ->
  String.length (removePrefixes [q1; q2] s) = String.length s ->
  startsWith s q1 = false /\ startsWith s q2 = false.
Proof.
  intros H1 H2. apply nonempty_length in H1, H2.
  unfold removePrefixes. cbn [fold_left].
  destruct (startsWith s q1) eqn:E1.
  - pose proof (startsWith_length _ _ E1).
    destruct (startsWith _ q2); rewrite ?length_substring; lia.
  - destruct (startsWith s q2) eqn:E2; [|tauto].
    pose proof (startsWith_length _ _ E2).
    rewrite length_substring. lia.
Qed.

Lemma removePrefixes_id (q1 q2 s : string) :
  startsWith s q1 = false -> startsWith s q2 = false ->
  removePrefixes [q1; q2] s = s.
Proof.
  intros H1 H2. unfold removePrefixes. cbn [fold_left].
  rewrite H1, H2. reflexivity.
Qed.

(** The common body of the handlers, for a prefix [p] that excludes the two
    prefixes it removes: two clicks give the draft back exactly when the
    draft, one leading [p] set aside, starts with none of the three. *)
Lemma togglePrefix_twice (p q1 q2 d : string) :
  p <> EmptyString -> q1 <> EmptyString -> q2 <> EmptyString ->
  (forall r, startsWith (p +:+ r) q1 = false) ->
  (forall r, startsWith (p +:+ r) q2 = false) ->
  togglePrefix p [q1; q2] (togglePrefix p [q1; q2] d) = d <->
  startsWith (Spec.stripOne p d) q1 = false /\
  startsWith (Spec.stripOne p d) q2 = false /\
  startsWith (Spec.stripOne p d) p = false.
Proof.
  intros Hp0 Hq1 Hq2 X1 X2. unfold Spec.stripOne.
  destruct (startsWith d p) eqn:Hp.
  - (* the draft is [p +:+ r]: the first click leaves [r] *)
    pose proof (JSFacts.startsWith_split _ _ Hp) as Hd.
    remember (substring d (String.length p)) as r eqn:Er. clear Er Hp. subst d.
    assert (T1 : togglePrefix p [q1; q2] (p +:+ r) = r).
    { unfold togglePrefix. rewrite (removePrefixes_id _ _ _ (X1 r) (X2 r)).
      rewrite JSFacts.startsWith_app. apply JSFacts.substring_app. }
    rewrite T1. unfold togglePrefix. split.
    + intros H.
      assert (Hlen : String.length (removePrefixes [q1; q2] r) = String.length r).
      { pose proof (removePrefixes_length q1 q2 r) as Hle.
        apply (f_equal String.length) in H.
        destruct (startsWith (removePrefixes [q1; q2] r) p);
          rewrite ?length_substring, !length_append in H; lia. }
      destruct (removePrefixes_same_length _ _ _ Hq1 Hq2 Hlen) as [F1 F2].
      rewrite (removePrefixes_id _ _ _ F1 F2) in H.
      repeat split; try assumption.
      destruct (startsWith r p); [|reflexivity].
      apply (f_equal String.length) in H.
      rewrite length_substring, length_append in H.
      apply nonempty_length in Hp0. lia.
    + intros (F1 & F2 & F3).
      rewrite (removePrefixes_id _ _ _ F1 F2), F3. reflexivity.
  - (* the draft does not start with [p] *)
    unfold togglePrefix at 2. split.
    + intros H.
      destruct (startsWith (removePrefixes [q1; q2] d) p) eqn:Hn.
      * (* the first click removed a conflicting prefix and then [p] *)
        exfalso.
        pose proof (removePrefixes_length q1 q2 d) as Hle.
        pose proof (startsWith_length _ _ Hn) as Hpl.
        assert (Hlt : String.length (removePrefixes [q1; q2] d) < String.length d).
        { destruct (Nat.eq_dec (String.length (removePrefixes [q1; q2] d))
                               (String.length d)) as [E|E]; [|lia].
          destruct (removePrefixes_same_length _ _ _ Hq1 Hq2 E) as [F1 F2].
          rewrite (removePrefixes_id _ _ _ F1 F2) in Hn. congruence. }
        apply (f_equal String.length) in H. unfold togglePrefix in H.
        pose proof (removePrefixes_length q1 q2
                      (substring (removePrefixes [q1; q2] d) (String.length p))) as Hle2.
        rewrite length_substring in Hle2.
        match type of H with
        | context [if ?c then _ else _] => destruct c
        end; rewrite ?length_substring, ?length_append in H; lia.
      * unfold togglePrefix in H.
        rewrite (removePrefixes_id _ _ _ (X1 _) (X2 _)) in H.
        rewrite JSFacts.startsWith_app, JSFacts.substring_app in H.
        assert (Hlen : String.length (removePrefixes [q1; q2] d) = String.length d)
          by (rewrite H; reflexivity).
        destruct (removePrefixes_same_length _ _ _ Hq1 Hq2 Hlen) as [F1 F2].
        repeat split; assumption.
    + intros (F1 & F2 & _).
      rewrite (removePrefixes_id _ _ _ F1 F2), Hp.
      unfold togglePrefix.
      rewrite (removePrefixes_id _ _ _ (X1 _) (X2 _)).
      rewrite JSFacts.startsWith_app. apply JSFacts.substring_app.
Qed.

(** C6, as stated, fails: a click on "Exam Note" first removes a leading
    "Generate Image: ", which a second click does not bring back. *)
Lemma toggle_twice_counterexample :
  toggle ExamNote (toggle ExamNote "Generate Image: foo") = "foo" /\
  ~ (forall (i : Intent) (d : string), toggle i (toggle i d) = d).
Proof.
  split; [reflexivity|].
  intros H. specialize (H ExamNote "Generate Image: foo"). discriminate H.
Qed.

(** C6 (amended): for each of the three intents, toggling its prefix twice
    gives the draft back if, and only if, the draft, once one leading
    occurrence of that same prefix is set aside, starts with none of the
    three recognised prefixes. *)
Theorem toggle_twice (i : Intent) (d : string) :
  toggle i (toggle i d) = d <->
  (forall q, In q Spec.recognizedPrefixes ->
             startsWith (Spec.stripOne (intentPrefix i) d) q = false).
Proof.
  assert (Hall : forall P : string -> Prop,
             (forall q, In q Spec.recognizedPrefixes -> P q) <->
             P "Explain the concept of " /\ P "Exam Note: " /\ P "Generate Image: ").
  { intros P. unfold Spec.recognizedPrefixes. simpl. split.
    - intros H. repeat split; apply H; tauto.
    - intros (H1 & H2 & H3) q [<-|[<-|[<-|[]]]]; assumption. }
  rewrite (Hall (fun q => startsWith (Spec.stripOne (intentPrefix i) d) q = false)).
  destruct i; cbn [toggle intentPrefix];
    unfold handleExplainClick, handleExamModeClick, handleChartClick;
    rewrite togglePrefix_twice by (try discriminate; intros r; reflexivity);
    tauto.
Qed.

Example toggle_twice_exam_note :
  toggle ExamNote (toggle ExamNote "Exam Note: What is goodwill?")
  = "Exam Note: What is goodwill?".
Proof. reflexivity. Qed.

End Toggles.

(* ===================================================================== *)
(** ** Media type of a picked file *)
(* ===================================================================== *)

Section MediaType.
Import JS InputArea.

(** The [switch] is the extension table: each entry fires its case. *)
Lemma switchExt_complete (e t : string) :
  In (e, t) Spec.extensionTable -> switchExt (Some e) = Some t.
Proof.
  unfold Spec.extensionTable. simpl. intros H.
  repeat (destruct H as [H|H]; [inversion H; subst; reflexivity|]).
  contradiction.
Qed.

(** ... and a case fires only on an entry. *)
Lemma switchExt_sound (ext : option string) (t : string) :
  switchExt ext = Some t ->
  exists e, ext = Some e /\ In (e, t) Spec.extensionTable.
Proof.
  destruct ext as [e|]; [|discriminate].
  unfold switchExt. intros H. exists e. split; [reflexivity|].
  repeat match type of H with
         | (if String.eqb e ?k then _ else _) = _ =>
             destruct (String.eqb_spec e k) as [->|_];
             [inversion H; subst; simpl; tauto|]
         end.
  discriminate.
Qed.

(** The extension of [stem.ext] is [ext] in lower case. *)
Lemma fileExt_dotted (stem ext : string) :
  Spec.freeOf "."%char ext = true ->
  fileExt (stem +:+ String "."%char ext) = Some (toLowerCase ext).
Proof.
  intros H. unfold fileExt. rewrite (JSFacts.last_split_app _ _ _ H).
  reflexivity.
Qed.

(** With the extension as the code computes it ([fileExt]): when the
    declared media type is missing or generic, the stored media type is the
    table's entry for it, and when it has no entry the stored type is
    application/octet-stream, which is not text based. *)
Lemma resolveMimeType_table (declared fileName : string) :
  declared = EmptyString \/ declared = "application/octet-stream" ->
  (forall e t, In (e, t) Spec.extensionTable ->
               fileExt fileName = Some e ->
               resolveMimeType {| file_type := declared; file_name := fileName |} = t)
  /\
  ((forall e t, In (e, t) Spec.extensionTable -> fileExt fileName <> Some e) ->
   resolveMimeType {| file_type := declared; file_name := fileName |}
     = "application/octet-stream" /\
   GeminiService.isTextBased
     (resolveMimeType {| file_type := declared; file_name := fileName |}) = false).
Proof.
  intros Hdecl. unfold resolveMimeType. cbn [file_type file_name].
  assert (Hgen : negb (truthy declared) ||
                 String.eqb declared "application/octet-stream" = true)
    by (destruct Hdecl as [->| ->]; reflexivity).
  rewrite Hgen. split.
  - intros e t Hin Hext. rewrite Hext, (switchExt_complete _ _ Hin).
    unfold Spec.extensionTable in Hin. simpl in Hin.
    repeat (destruct Hin as [Hin|Hin]; [inversion Hin; subst; reflexivity|]).
    contradiction.
  - intros Hnone.
    destruct (switchExt (fileExt fileName)) as [t|] eqn:Hsw.
    + apply switchExt_sound in Hsw as (e & He & Hin).
      exfalso. exact (Hnone e t Hin He).
    + destruct Hdecl as [->| ->]; split; reflexivity.
Qed.

Example resolveMimeType_table_sample :
  resolveMimeType {| file_type := EmptyString; file_name := "Ledger.CSV" |}
    = "text/csv" /\
  resolveMimeType {| file_type := "application/octet-stream";
                     file_name := "trial-balance.xlsb" |}
    = "application/octet-stream".
Proof.
  split.
  - apply (proj1 (resolveMimeType_table EmptyString "Ledger.CSV"
                    (or_introl eq_refl)) "csv" "text/csv");
      [simpl; auto | reflexivity].
  - apply (proj2 (resolveMimeType_table "application/octet-stream"
                    "trial-balance.xlsb" (or_intror eq_refl))).
    intros e t Hin. unfold Spec.extensionTable in Hin. simpl in Hin.
    repeat (destruct Hin as [Hin|Hin];
            [inversion Hin; subst; vm_compute; discriminate|]).
    contradiction.
Defined.

(** A name without a dot has no extension ... *)
Lemma extensionOf_dotless (name : string) :
  Spec.freeOf "."%char name = true -> Spec.extensionOf name = None.
Proof.
  induction name as [|c name IH]; [reflexivity|].
  cbn [Spec.freeOf Spec.extensionOf]. intros H.
  apply andb_prop in H as [Hc Hname]. apply negb_true_iff in Hc.
  rewrite (IH Hname), Hc. reflexivity.
Qed.

(** ... and the extension of [stem.ext] is [ext]. *)
Lemma extensionOf_dotted (stem ext : string) :
  Spec.freeOf "."%char ext = true ->
  Spec.extensionOf (stem +:+ String "."%char ext) = Some ext.
Proof.
  intros H. induction stem as [|c stem IH].
  - cbn [String.append Spec.extensionOf].
    rewrite (extensionOf_dotless _ H). reflexivity.
  - cbn [String.append Spec.extensionOf]. rewrite IH. reflexivity.
Qed.

(** [split] returns a name without a dot whole, and [pop] takes it for the
    extension. *)
Lemma fileExt_dotless (name : string) :
  Spec.freeOf "."%char name = true -> fileExt name = Some (toLowerCase name).
Proof.
  intros H. unfold fileExt. rewrite (JSFacts.split_freeOf _ _ H). reflexivity.
Qed.

(** C3: the claim holds for every file name that has a dot, with the
    extension compared in lower case; it fails for a name without a dot:
    such a name has no extension, yet the code takes the whole name for
    one, so the file called csv, picked with a missing or generic type, is
    stored as text/csv and handled as text where the claim leaves it
    application/octet-stream. *)
Theorem resolveMimeType_dotless_name :
  (Spec.extensionOf "csv" = None /\
   resolveMimeType {| file_type := EmptyString; file_name := "csv" |} = "text/csv" /\
   GeminiService.isTextBased
     (resolveMimeType {| file_type := EmptyString; file_name := "csv" |}) = true) /\
  (forall declared name t,
      declared = EmptyString \/ declared = "application/octet-stream" ->
      Spec.freeOf "."%char name = true ->
      In (toLowerCase name, t) Spec.extensionTable ->
      Spec.extensionOf name = None /\
      resolveMimeType {| file_type := declared; file_name := name |} = t) /\
  (forall declared stem ext,
      declared = EmptyString \/ declared = "application/octet-stream" ->
      Spec.freeOf "."%char ext = true ->
      Spec.extensionOf (stem +:+ String "."%char ext) = Some ext /\
      (forall t, In (toLowerCase ext, t) Spec.extensionTable ->
                 resolveMimeType {| file_type := declared;
                                    file_name := stem +:+ String "."%char ext |} = t) /\
      ((forall t, ~ In (toLowerCase ext, t) Spec.extensionTable) ->
       resolveMimeType {| file_type := declared;
                          file_name := stem +:+ String "."%char ext |}
         = "application/octet-stream" /\
       GeminiService.isTextBased
         (resolveMimeType {| file_type := declared;
                             file_name := stem +:+ String "."%char ext |}) = false)).
Proof.
  split; [repeat split; reflexivity|]. split.
  - intros declared name t Hdecl Hfree Hin.
    split; [exact (extensionOf_dotless _ Hfree)|].
    exact (proj1 (resolveMimeType_table declared name Hdecl) _ _ Hin
             (fileExt_dotless _ Hfree)).
  - intros declared stem ext Hdecl Hfree.
    split; [exact (extensionOf_dotted _ _ Hfree)|].
    pose proof (resolveMimeType_table declared (stem +:+ String "."%char ext) Hdecl)
      as [Hhit Hmiss].
    split.
    + intros t Hin. exact (Hhit _ _ Hin (fileExt_dotted _ _ Hfree)).
    + intros Hnone. apply Hmiss. intros e t Hin Hext.
      rewrite (fileExt_dotted _ _ Hfree) in Hext. injection Hext as <-.
      exact (Hnone t Hin).
Qed.

(** The claim on names with a dot, at an upper-case and at an unknown
    extension. *)
Example resolveMimeType_dotted_names :
  resolveMimeType {| file_type := EmptyString; file_name := "Ledger.CSV" |}
    = "text/csv" /\
  resolveMimeType {| file_type := "application/octet-stream";
                     file_name := "trial-balance.xlsb" |}
    = "application/octet-stream" /\
  resolveMimeType {| file_type := EmptyString; file_name := "README" |}
    = "application/octet-stream".
Proof. repeat split; reflexivity. Qed.

End MediaType.

(* ===================================================================== *)
(** ** The base64 payload of an attachment *)
(* ===================================================================== *)

Section Payload.
Import JS GeminiService.

(** Without a comma the data string is passed on unchanged. *)
Lemma base64Data_no_comma (s : string) :
  Spec.freeOf ","%char s = true -> base64Data s = s.
Proof.
  intros H. unfold base64Data. rewrite (JSFacts.split_freeOf _ _ H).
  reflexivity.
Qed.

(** What [base64Data] keeps of a string with a comma: the text between
    the first comma and the next one, unless that text is empty. *)
Lemma base64Data_segment (pre seg : string) (rest : list string) (tail : string) :
  Spec.freeOf ","%char pre = true ->
  split tail ","%char = seg :: rest ->
  base64Data (pre +:+ String ","%char tail)
  = if truthy seg then seg else pre +:+ String ","%char tail.
Proof.
  intros Hpre Htail. unfold base64Data.
  rewrite (JSFacts.split_app _ _ _ Hpre), Htail. reflexivity.
Qed.

(** On a data URL with a non-empty payload free of commas the payload is
    the text after the first comma. *)
Lemma base64Data_data_url (pre payload : string) :
  Spec.freeOf ","%char pre = true ->
  Spec.freeOf ","%char payload = true ->
  payload <> EmptyString ->
  base64Data (pre +:+ String ","%char payload) = payload.
Proof.
  intros Hpre Hpay Hne.
  rewrite (base64Data_segment pre payload [] payload Hpre
             (JSFacts.split_freeOf _ _ Hpay)).
  destruct payload; [contradiction|reflexivity].
Qed.

(** C5: on the data URL of an empty file the code passes the whole data
    URL on, scheme prefix included, where the claim gives the empty
    payload after the comma.  Likewise a second comma cuts the payload. *)
Theorem base64Data_empty_payload :
  base64Data "data:text/plain;base64," = "data:text/plain;base64," /\
  Spec.specPayload "data:text/plain;base64," = EmptyString /\
  base64Data "a,b,c" = "b" /\
  Spec.specPayload "a,b,c" = "b,c".
Proof. repeat split; reflexivity. Qed.

End Payload.

(* ===================================================================== *)
(** ** Decoding and content assembly *)
(* ===================================================================== *)

Section Assembly.
Import JS GeminiService.

Variable atob : string -> result string.
Variable TextDecoder_decode : list Byte.byte -> result string.

Local Abbreviation decodeBase64Text := (decodeBase64Text atob TextDecoder_decode).
Local Abbreviation historyContent := (historyContent atob TextDecoder_decode).
Local Abbreviation historyContents := (historyContents atob TextDecoder_decode).
Local Abbreviation currentContent := (currentContent atob TextDecoder_decode).
Local Abbreviation buildRequest := (buildRequest atob TextDecoder_decode).

Lemma decodeBase64Text_total (base64 : string) :
  exists s, decodeBase64Text base64 = Ok s.
Proof.
  unfold GeminiService.decodeBase64Text, tryCatch, bind.
  destruct (atob base64) as [bin|e]; [|eauto].
  destruct (TextDecoder_decode _) as [s|e]; eauto.
Qed.

Lemma historyContent_total (msg : Message) :
  exists c, historyContent msg = Ok c.
Proof.
  unfold GeminiService.historyContent.
  destruct (attachment msg) as [att|].
  - destruct (isTextBased (mimeType att)).
    + destruct (decodeBase64Text_total (base64Data (data att))) as [s ->].
      simpl. eauto.
    + simpl. eauto.
  - destruct (image msg) as [img|]; [destruct (truthy img)|]; simpl; eauto.
Qed.

Lemma historyContents_total (history : list Message) :
  exists cs, historyContents history = Ok cs.
Proof.
  induction history as [|msg rest [cs IH]]; simpl; [eauto|].
  destruct (historyContent_total msg) as [c ->]. rewrite IH. simpl. eauto.
Qed.

Lemma currentContent_total (prompt : string) (att : option Attachment) :
  exists attached,
    currentContent prompt att
    = Ok {| content_role := user; parts := attached ++ [TextPart prompt] |}.
Proof.
  unfold GeminiService.currentContent.
  destruct att as [att|].
  - destruct (isTextBased (mimeType att)).
    + destruct (decodeBase64Text_total (base64Data (data att))) as [s ->].
      eexists. reflexivity.
    + eexists. reflexivity.
  - eexists. reflexivity.
Qed.

(** Building the request never throws, whatever the attachments hold. *)
Lemma buildRequest_total (prompt : string) (history : list Message)
    (att : option Attachment) :
  exists request, buildRequest prompt history att = Ok request.
Proof.
  unfold GeminiService.buildRequest.
  destruct (startsWith prompt "Generate Image:"); [eauto|].
  destruct (historyContents_total history) as [cs ->].
  destruct (currentContent_total prompt att) as (attached & ->).
  simpl. eauto.
Qed.

(** C7: [decodeBase64Text] never throws: it always returns a string, and
    that string is empty whenever [atob] or the text decoder throws.  A
    message whose text attachment cannot be decoded still assembles, with
    an empty content between the file markers, and the whole request is
    built whatever the payloads are. *)
Theorem decodeBase64Text_never_throws (base64 : string) :
  (exists s, decodeBase64Text base64 = Ok s) /\
  (forall e, atob base64 = Throw e ->
             decodeBase64Text base64 = Ok EmptyString) /\
  (forall bin e, atob base64 = Ok bin ->
                 TextDecoder_decode (String.list_byte_of_string bin) = Throw e ->
                 decodeBase64Text base64 = Ok EmptyString) /\
  (forall msg att e,
      attachment msg = Some att ->
      isTextBased (mimeType att) = true ->
      base64Data (data att) = base64 ->
      atob base64 = Throw e ->
      historyContent msg
      = Ok {| content_role := role msg;
              parts := [TextPart (Spec.fileBlock (name att) EmptyString);
                        TextPart (text msg)] |}) /\
  (forall prompt history att,
      exists request, buildRequest prompt history att = Ok request).
Proof.
  split; [apply decodeBase64Text_total|].
  split; [intros e He; unfold GeminiService.decodeBase64Text; rewrite He; reflexivity|].
  split.
  { intros bin e Hbin He. unfold GeminiService.decodeBase64Text.
    rewrite Hbin. simpl. rewrite He. reflexivity. }
  split; [|intros; apply buildRequest_total].
  intros msg att e Hatt Htext Hdata He.
  unfold GeminiService.historyContent, GeminiService.decodeBase64Text.
  rewrite Hatt, Htext, Hdata, He. simpl.
  unfold Spec.fileBlock. rewrite ?JSFacts.append_assoc. reflexivity.
Qed.

End Assembly.

Example undecodable_payload :
  Browser.atob "%%not base64%%" = JS.Throw JS.InvalidCharacterError /\
  GeminiService.decodeBase64Text Browser.atob Browser.decodeBytes "%%not base64%%"
  = JS.Ok EmptyString.
Proof. split; reflexivity. Qed.

(** The theorem at a message whose CSV attachment holds no base64 at all. *)
Lemma decodeBase64Text_never_throws_witness :
  GeminiService.historyContent Browser.atob Browser.decodeBytes
    {| GeminiService.id := "m2"; GeminiService.role := GeminiService.user;
       GeminiService.text := "sum column a"; GeminiService.timestamp := 0%Z;
       GeminiService.attachment :=
         Some {| GeminiService.data := "data:text/csv;base64,%%not base64%%";
                 GeminiService.mimeType := "text/csv";
                 GeminiService.name := "t.csv" |};
       GeminiService.image := None |}
  = JS.Ok {| GeminiService.content_role := GeminiService.user;
             GeminiService.parts :=
               [GeminiService.TextPart (Spec.fileBlock "t.csv" EmptyString);
                GeminiService.TextPart "sum column a"] |}.
Proof.
  refine (proj1 (proj2 (proj2 (proj2
            (decodeBase64Text_never_throws Browser.atob Browser.decodeBytes
               "%%not base64%%"))))
            {| GeminiService.id := "m2"; GeminiService.role := GeminiService.user;
               GeminiService.text := "sum column a"; GeminiService.timestamp := 0%Z;
               GeminiService.attachment :=
                 Some {| GeminiService.data := "data:text/csv;base64,%%not base64%%";
                         GeminiService.mimeType := "text/csv";
                         GeminiService.name := "t.csv" |};
               GeminiService.image := None |}
            _ JS.InvalidCharacterError eq_refl eq_refl eq_refl eq_refl).
Defined.

(* ===================================================================== *)
(** ** Parts emitted for a text attachment *)
(* ===================================================================== *)

Section Attachments.
Import JS GeminiService.

Variable atob : string -> result string.
Variable TextDecoder_decode : list Byte.byte -> result string.

(** C4, as stated, fails on the turn being sent: its text part ends with
    two more line feeds than the part of an earlier turn. *)
Lemma current_turn_format_counterexample :
  isTextBased (mimeType Browser.sampleCsv) = true /\
  decodeBase64Text Browser.atob Browser.decodeBytes
    (base64Data (data Browser.sampleCsv)) = Ok Browser.sampleCsvText /\
  currentContent Browser.atob Browser.decodeBytes "sum column a"
    (Some Browser.sampleCsv)
  <> Ok {| content_role := user;
           parts := [TextPart (Spec.fileBlock "t.csv" Browser.sampleCsvText);
                     TextPart "sum column a"] |}.
Proof.
  split; [reflexivity|]. split; [reflexivity|].
  intros H. vm_compute in H. discriminate H.
Qed.

(** C4 (amended): for a text-based attachment named [n] whose payload
    decodes to [c], an earlier message contributes exactly the text part
    "[Attached File: n]" LF c LF "[End of File]" followed by the message
    text, with no inline-data part; the turn being sent contributes the
    same text followed by two line feeds, then the prompt. *)
Theorem textual_attachment_parts (att : Attachment) :
  isTextBased (mimeType att) = true ->
  exists c,
    decodeBase64Text atob TextDecoder_decode (base64Data (data att)) = Ok c /\
    (forall msg,
        attachment msg = Some att ->
        historyContent atob TextDecoder_decode msg
        = Ok {| content_role := role msg;
                parts := [TextPart (Spec.fileBlock (name att) c);
                          TextPart (text msg)] |}) /\
    (forall prompt,
        currentContent atob TextDecoder_decode prompt (Some att)
        = Ok {| content_role := user;
                parts := [TextPart (Spec.fileBlock (name att) c +:+ LF +:+ LF);
                          TextPart prompt] |}).
Proof.
  intros Htext.
  destruct (decodeBase64Text_total atob TextDecoder_decode (base64Data (data att)))
    as [c Hc].
  exists c. split; [exact Hc|]. split.
  - intros msg Hatt. unfold historyContent. rewrite Hatt, Htext, Hc. simpl.
    unfold Spec.fileBlock. rewrite ?JSFacts.append_assoc. reflexivity.
  - intros prompt. unfold currentContent. rewrite Htext, Hc. cbn [bind].
    unfold Spec.fileBlock.
    repeat (rewrite JSFacts.append_assoc; cbn [String.append]). reflexivity.
Qed.

End Attachments.

Lemma textual_attachment_parts_witness :
  exists c,
    GeminiService.decodeBase64Text Browser.atob Browser.decodeBytes
      (GeminiService.base64Data (GeminiService.data Browser.sampleCsv)) = JS.Ok c /\
    (forall msg,
        GeminiService.attachment msg = Some Browser.sampleCsv ->
        GeminiService.historyContent Browser.atob Browser.decodeBytes msg
        = JS.Ok {| GeminiService.content_role := GeminiService.role msg;
                   GeminiService.parts :=
                     [GeminiService.TextPart (Spec.fileBlock "t.csv" c);
                      GeminiService.TextPart (GeminiService.text msg)] |}) /\
    (forall prompt,
        GeminiService.currentContent Browser.atob Browser.decodeBytes prompt
          (Some Browser.sampleCsv)
        = JS.Ok {| GeminiService.content_role := GeminiService.user;
                   GeminiService.parts :=
                     [GeminiService.TextPart
                        (Spec.fileBlock "t.csv" c +:+ JS.LF +:+ JS.LF);
                      GeminiService.TextPart prompt] |}).
Proof.
  exact (textual_attachment_parts Browser.atob Browser.decodeBytes
           Browser.sampleCsv eq_refl).
Defined.

(* ===================================================================== *)
(** ** Reading an image response *)
(* ===================================================================== *)

Section ImageResponse.
Import JS GeminiService.

(** The loop appends the text parts and overwrites the image. *)
Lemma imageLoop_spec (ps : list ResponsePart) (text : string) (img : option string) :
  fold_left imageLoopBody ps (text, img)
  = (text +:+ Spec.concat (Spec.textParts ps),
     match last (Spec.inlineImages ps) with
     | Some url => Some url
     | None => img
     end).
Proof.
  revert text img. induction ps as [|p ps IH]; intros text img.
  - simpl. rewrite JSFacts.append_nil_r. reflexivity.
  - cbn [fold_left]. unfold imageLoopBody at 2.
    unfold Spec.textParts, Spec.inlineImages in *. cbn [omap list_omap].
    destruct (inlineData p) as [blob|].
    + rewrite IH, last_cons. destruct (last _); reflexivity.
    + destruct (part_text p) as [t|].
      * destruct t as [|c t]; cbn [truthy].
        -- rewrite IH. reflexivity.
        -- rewrite IH. cbn [Spec.concat]. rewrite JSFacts.append_assoc.
           reflexivity.
      * rewrite IH. reflexivity.
Qed.

(** C2, as stated, fails: of two inline images the result holds the
    second one, not the first. *)
Lemma first_image_counterexample :
  head (Spec.inlineImages [ {| inlineData := Some {| blob_mimeType := Some "image/png";
                                                     blob_data := Some "AAAA" |};
                               part_text := None |};
                            {| inlineData := Some {| blob_mimeType := Some "image/png";
                                                     blob_data := Some "BBBB" |};
                               part_text := None |} ])
    = Some "data:image/png;base64,AAAA" /\
  generatedImage (imageResult Browser.twoImages)
    = Some "data:image/png;base64,BBBB" /\
  generatedImage (imageResult Browser.twoImages)
    <> Some "data:image/png;base64,AAAA".
Proof. repeat split; [reflexivity..|discriminate]. Qed.

(** C2 (amended): the text of the result is the concatenation of the text
    parts in their order, or the fixed message when that concatenation is
    empty; the image of the result is the LAST inline image in part order,
    and there is none when the response has no inline image. *)
Theorem imageResult_parts (ps : list ResponsePart) (txt : option string) :
  let r := imageResult {| candidate_parts := Some ps; response_text := txt |} in
  (Spec.concat (Spec.textParts ps) <> EmptyString ->
   reply_text r = Spec.concat (Spec.textParts ps)) /\
  (Spec.concat (Spec.textParts ps) = EmptyString ->
   reply_text r = "Here is the visual representation you requested.") /\
  generatedImage r = last (Spec.inlineImages ps).
Proof.
  unfold imageResult. cbn [candidate_parts].
  rewrite imageLoop_spec. cbn [String.append].
  repeat split.
  - intros Hne. cbn [reply_text].
    destruct (Spec.concat (Spec.textParts ps)); [contradiction|reflexivity].
  - intros ->. reflexivity.
  - cbn [generatedImage]. destruct (last (Spec.inlineImages ps)); reflexivity.
Qed.

End ImageResponse.

(** The theorem at a response whose caption surrounds the image. *)
Lemma imageResult_parts_witness :
  GeminiService.reply_text
    (GeminiService.imageResult
       {| GeminiService.candidate_parts := Some Browser.captionedImage;
          GeminiService.response_text := None |})
  = "Expenses by category".
Proof.
  apply (proj1 (imageResult_parts Browser.captionedImage None)).
  vm_compute. discriminate.
Defined.

(* ===================================================================== *)
(** ** Which request a draft is turned into *)
(* ===================================================================== *)

Section Routing.
Import JS GeminiService.

Variable atob : string -> result string.
Variable TextDecoder_decode : list Byte.byte -> result string.

(** C1, as stated, fails: the prefix the service tests is "Generate Image:"
    without the trailing space, so a draft that does not start with
    "Generate Image: " is still sent as an image request. *)
Lemma route_counterexample :
  startsWith "Generate Image:chart" "Generate Image: " = false /\
  buildRequest Browser.atob Browser.decodeBytes
    (App.promptContext None "Generate Image:chart") [] None
  = Ok (ImageRequest "chart").
Proof. split; reflexivity. Qed.

(** With a subject selected the prompt starts with the subject tag, and a
    draft with the image prefix goes to the chat flow. *)
Example route_with_subject :
  buildRequest Browser.atob Browser.decodeBytes
    (App.promptContext (Some "Taxation") "Generate Image: pie chart of expenses")
    [] None
  = Ok (ChatRequest
          [{| content_role := user;
              parts := [TextPart "[Subject: Taxation] Generate Image: pie chart of expenses"] |}]).
Proof. reflexivity. Qed.

Example route_pie_chart :
  buildRequest Browser.atob Browser.decodeBytes
    (App.promptContext None "Generate Image: pie chart of expenses") [] None
  = Ok (ImageRequest "pie chart of expenses").
Proof. reflexivity. Qed.

(** C1 (amended): with no subject selected, a draft is sent as an image
    request exactly when it starts with the case-sensitive prefix
    "Generate Image:" (no space required), the image prompt being the rest
    of the draft with surrounding white space trimmed; every other draft,
    one starting with "Exam Note: " included, is sent as a chat request
    whose last turn is the user turn ending with the draft itself. *)
Theorem route_by_prefix (draft : string) (history : list Message)
    (att : option Attachment) :
  (startsWith draft "Generate Image:" = true <->
   exists imagePrompt,
     buildRequest atob TextDecoder_decode (App.promptContext None draft) history att
     = Ok (ImageRequest imagePrompt)) /\
  (startsWith draft "Generate Image:" = true ->
   buildRequest atob TextDecoder_decode (App.promptContext None draft) history att
   = Ok (ImageRequest (trim (substring draft 15)))) /\
  (startsWith draft "Generate Image:" = false ->
   exists earlier attached,
     buildRequest atob TextDecoder_decode (App.promptContext None draft) history att
     = Ok (ChatRequest
             (earlier ++ [{| content_role := user;
                             parts := attached ++ [TextPart draft] |}]))).
Proof.
  cbn [App.promptContext]. unfold buildRequest.
  destruct (startsWith draft "Generate Image:") eqn:Hp.
  - rewrite (JSFacts.replace_startsWith _ _ Hp).
    change (String.length "Generate Image:") with 15.
    split; [|split]; try (intros; discriminate); try reflexivity.
    split; eauto.
  - destruct (historyContents_total atob TextDecoder_decode history) as [cs Hcs].
    destruct (currentContent_total atob TextDecoder_decode draft att)
      as [attached Hcur].
    rewrite Hcs, Hcur. cbn [bind].
    split; [|split]; try (intros; discriminate).
    + split; [discriminate|]. intros [imagePrompt H]. discriminate H.
    + intros _. eauto.
Qed.

End Routing.

(** The theorem at the draft of the pie chart. *)
Lemma route_by_prefix_witness :
  GeminiService.buildRequest Browser.atob Browser.decodeBytes
    (App.promptContext None "Generate Image: pie chart of expenses") [] None
  = JS.Ok (GeminiService.ImageRequest
             (JS.trim (JS.substring "Generate Image: pie chart of expenses" 15))).
Proof.
  apply (proj1 (proj2 (route_by_prefix Browser.atob Browser.decodeBytes
                         "Generate Image: pie chart of expenses" [] None))).
  reflexivity.
Defined.

(* ===================================================================== *)
(** ** The search filter *)
(* ===================================================================== *)

Section Search.
Import JS GeminiService.

(** A boolean filter keeps exactly the elements its test accepts. *)
Lemma filter_Kept {A} (f : A -> bool) (P : A -> Prop) (l : list A) :
  (forall x, f x = true <-> P x) -> Spec.Kept P l (List.filter f l).
Proof.
  intros Hf. induction l as [|x l IH]; simpl.
  - constructor.
  - destruct (f x) eqn:Hx.
    + apply Spec.Kept_take; [apply Hf, Hx | exact IH].
    + apply Spec.Kept_skip; [|exact IH].
      intros HP. apply Hf in HP. congruence.
Qed.

(** What is kept is determined by the list and the predicate. *)
Lemma Kept_unique {A} (P : A -> Prop) (l out1 out2 : list A) :
  Spec.Kept P l out1 -> Spec.Kept P l out2 -> out1 = out2.
Proof.
  intros H1. revert out2.
  induction H1 as [|x l out HP _ IH|x l out HP _ IH]; intros out2 H2;
    inversion H2; subst; try contradiction; try reflexivity.
  - f_equal. apply IH. assumption.
  - apply IH. assumption.
Qed.

Lemma trim_truthy (t : string) : truthy (trim t) = false <-> trim t = EmptyString.
Proof. destruct (trim t); simpl; split; intros H; congruence. Qed.

(** C9, as stated, fails on a term made of white space only: it is not
    empty, yet every message is returned, also those without a space. *)
Lemma blank_term_counterexample :
  " " <> EmptyString /\
  App.displayedMessages [Browser.sampleUserMessage] " "
    = [Browser.sampleUserMessage] /\
  ~ Spec.Kept (fun m => Spec.containsIgnoringCase (text m) " ")
      [Browser.sampleUserMessage]
      (App.displayedMessages [Browser.sampleUserMessage] " ").
Proof.
  split; [discriminate|]. split; [reflexivity|].
  change (App.displayedMessages [Browser.sampleUserMessage] " ")
    with [Browser.sampleUserMessage].
  intros H. inversion H as [|x l out HP Hrest|x l out HP Hrest]; subst.
  - unfold Spec.containsIgnoringCase in HP.
    apply JSFacts.includes_occursIn in HP. vm_compute in HP. discriminate HP.
  - inversion Hrest.
Qed.

Example search_ignores_case :
  App.displayedMessages [Browser.sampleUserMessage] "depreciation"
  = [Browser.sampleUserMessage].
Proof. reflexivity. Qed.

(** C9 (amended): when the search term is empty or made of white space
    only, the displayed messages are the messages themselves, unchanged;
    otherwise they are exactly the messages whose text contains the term
    as typed (not trimmed), letter case ignored, in their original order. *)
Theorem displayedMessages_spec (ms : list Message) (term : string) :
  (trim term = EmptyString -> App.displayedMessages ms term = ms) /\
  (trim term <> EmptyString ->
   Spec.Kept (fun m => Spec.containsIgnoringCase (text m) term)
     ms (App.displayedMessages ms term)).
Proof.
  unfold App.displayedMessages. split.
  - intros Ht. rewrite Ht. reflexivity.
  - intros Ht. destruct (truthy (trim term)) eqn:E.
    + apply filter_Kept. intros m. apply JSFacts.includes_occursIn.
    + apply trim_truthy in E. contradiction.
Qed.

End Search.

(** The theorem at a search for "depreciation". *)
Lemma displayedMessages_spec_witness :
  Spec.Kept (fun m => Spec.containsIgnoringCase (GeminiService.text m) "depreciation")
    [Browser.sampleUserMessage]
    (App.displayedMessages [Browser.sampleUserMessage] "depreciation").
Proof.
  apply (proj2 (displayedMessages_spec [Browser.sampleUserMessage] "depreciation")).
  vm_compute. discriminate.
Defined.

(* ===================================================================== *)
(** ** Restore, goHome, resetChat and the autosave *)
(* ===================================================================== *)

Section Persistence.
Import JS App.

Variable JSON_parse : string -> result JSValue.
Variable JSON_stringify : ChatState -> string.

Lemma lookupProp_setProp_eq (k : string) (v : JSValue) (props : list (string * JSValue)) :
  lookupProp k (setProp k v props) = v.
Proof.
  induction props as [|[k' v'] props IH]; simpl.
  - rewrite String.eqb_refl. reflexivity.
  - destruct (String.eqb k k') eqn:E; simpl.
    + rewrite String.eqb_refl. reflexivity.
    + rewrite E. exact IH.
Qed.

Lemma lookupProp_setProp_ne (k k0 : string) (v : JSValue)
    (props : list (string * JSValue)) :
  k <> k0 -> lookupProp k (setProp k0 v props) = lookupProp k props.
Proof.
  intros Hne. apply String.eqb_neq in Hne.
  induction props as [|[k' v'] props IH]; simpl.
  - rewrite Hne. reflexivity.
  - destruct (String.eqb k0 k') eqn:E; simpl.
    + apply String.eqb_eq in E. subst k'. rewrite Hne. reflexivity.
    + destruct (String.eqb k k'); [reflexivity|exact IH].
Qed.

(** A stored message that is neither [null] nor [undefined] is rebuilt. *)
Lemma restoreMessage_ok (m : JSValue) :
  m <> JNull /\ m <> JUndefined ->
  exists m', restoreMessage m = Ok m' /\ Spec.Reconstructed m m'.
Proof.
  intros [Hnull Hundef]. unfold restoreMessage, getProp.
  assert (Hgo : forall props,
             props = ownProps m ->
             Spec.Reconstructed m
               (JObject (setProp "timestamp" (JDate (lookupProp "timestamp" props)) props))).
  { intros props ->. eexists. split; [reflexivity|]. split.
    - apply lookupProp_setProp_eq.
    - intros k Hk. apply lookupProp_setProp_ne, Hk. }
  destruct m; try contradiction; cbn [bind]; eexists; (split; [reflexivity|]);
    apply Hgo; reflexivity.
Qed.

Lemma mapM_restoreMessage (stored : list JSValue) :
  Forall (fun m => m <> JNull /\ m <> JUndefined) stored ->
  exists msgs, mapM restoreMessage stored = Ok msgs /\
               Forall2 Spec.Reconstructed stored msgs.
Proof.
  induction 1 as [|m stored Hm _ (msgs & Hmsgs & Hall)]; simpl.
  - exists []. split; [reflexivity|constructor].
  - destruct (restoreMessage_ok m Hm) as (m' & -> & Hm').
    rewrite Hmsgs. simpl. exists (m' :: msgs). split; [reflexivity|].
    constructor; assumption.
Qed.

(** A snapshot that parses to an object with a [messages] array of
    objects is restored message by message. *)
Lemma initialState_messages (read : result (option string))
    (raw : string) (parsed : JSValue) (stored : list JSValue) :
  read = Ok (Some raw) -> raw <> EmptyString ->
  JSON_parse raw = Ok parsed ->
  getProp parsed "messages" = Ok (JArray stored) ->
  Forall (fun m => m <> JNull /\ m <> JUndefined) stored ->
  Forall2 Spec.Reconstructed stored (messages (initialState JSON_parse read)).
Proof.
  intros -> Hraw Hparse Hmsgs Hall.
  destruct (mapM_restoreMessage stored Hall) as (msgs & Hmap & Hrec).
  unfold initialState, loadState. cbn [bind].
  destruct raw; [contradiction|]. cbn [truthy].
  rewrite Hparse. cbn [bind]. rewrite Hmsgs. cbn [bind arrayMap].
  rewrite Hmap. exact Hrec.
Qed.

Lemma loadState_isLoading (read : result (option string)) (st : ChatState) :
  loadState JSON_parse read = Ok (Some st) -> isLoading st = false.
Proof.
  unfold loadState.
  destruct read as [[raw|]|e]; cbn [bind]; try discriminate.
  destruct (truthy raw); [|discriminate].
  destruct (JSON_parse raw) as [parsed|e]; cbn [bind]; [|discriminate].
  destruct (getProp parsed "messages") as [stored|e]; cbn [bind]; [|discriminate].
  destruct (arrayMap restoreMessage stored) as [msgs|e]; cbn [bind]; [|discriminate].
  intros [= <-]. reflexivity.
Qed.

Example restore_sample :
  lookupProp "isLoading" (ownProps Browser.sampleSnapshot) = JBool true /\
  isLoading (initialState Browser.parseSample (Ok (Some Browser.sampleText))) = false /\
  messages (initialState Browser.parseSample (Ok (Some Browser.sampleText)))
  = [JObject [("id", JString "m1"); ("role", JString "user");
              ("text", JString "What is depreciation?");
              ("timestamp", JDate (JString "2024-05-01T10:00:00.000Z"))]] /\
  selectedSubject (initialState Browser.parseSample (Ok (Some Browser.sampleText)))
  = JString "Taxation".
Proof. repeat split; reflexivity. Qed.

(** C8: the state built at startup has [isLoading = false] whatever the
    snapshot stored; when the snapshot parses to an object with a
    [messages] array, each restored message is the stored one with its
    [timestamp] rebuilt as a date from the stored value; and without a
    snapshot, or when reading, parsing or the shape of the snapshot fails,
    the state is the empty default. *)
Theorem restore_spec (read : result (option string)) :
  isLoading (initialState JSON_parse read) = false /\
  (forall raw parsed stored,
      read = Ok (Some raw) -> raw <> EmptyString ->
      JSON_parse raw = Ok parsed ->
      getProp parsed "messages" = Ok (JArray stored) ->
      Forall (fun m => m <> JNull /\ m <> JUndefined) stored ->
      Forall2 Spec.Reconstructed stored (messages (initialState JSON_parse read))) /\
  (read = Ok None \/ read = Ok (Some EmptyString) \/ (exists e, read = Throw e) \/
   (exists raw e, read = Ok (Some raw) /\ JSON_parse raw = Throw e) \/
   (exists raw parsed, read = Ok (Some raw) /\ JSON_parse raw = Ok parsed /\
                       forall stored, getProp parsed "messages" <> Ok (JArray stored)) ->
   initialState JSON_parse read = defaultState /\
   isLoading defaultState = false /\ messages defaultState = []).
Proof.
  split; [|split].
  - unfold initialState, tryCatch.
    destruct (loadState JSON_parse read) as [[st|]|e] eqn:E; try reflexivity.
    apply (loadState_isLoading _ _ E).
  - intros raw parsed stored. apply initialState_messages.
  - intros H. split; [|split; reflexivity].
    unfold initialState, loadState.
    destruct H as [->|[->|[[e ->]|[(raw & e & -> & Hp)|(raw & parsed & -> & Hp & Hm)]]]];
      cbn [bind tryCatch truthy]; try reflexivity.
    + destruct (truthy raw); [|reflexivity]. rewrite Hp. reflexivity.
    + destruct (truthy raw); [|reflexivity]. rewrite Hp. cbn [bind].
      destruct (getProp parsed "messages") as [v|e]; cbn [bind]; [|reflexivity].
      destruct v; try reflexivity. exfalso. exact (Hm _ eq_refl).
Qed.

Lemma autosaveTick_empty (w : World) :
  messages (state w) = [] -> autosaveTick JSON_stringify w = w.
Proof. intros H. unfold autosaveTick. rewrite H. reflexivity. Qed.

Lemma autosave_after_goHome (n : nat) (w : World) :
  Nat.iter n (autosaveTick JSON_stringify) (goHome w) = goHome w.
Proof.
  induction n as [|n IH]; simpl; [reflexivity|].
  rewrite IH. apply autosaveTick_empty. reflexivity.
Qed.

(** A message restored from the stored form of a message on the screen
    carries the properties of that message. *)
Lemma restored_same_messages (shown stored restored : list JSValue) :
  Forall2 Spec.SameButTimestamp shown stored ->
  Forall2 Spec.Reconstructed stored restored ->
  Forall2 Spec.SameButTimestamp shown restored.
Proof.
  intros Hshown. revert restored.
  induction Hshown as [|m j shown stored Hmj _ IH]; intros restored Hrec.
  - inversion Hrec; subst. constructor.
  - inversion Hrec as [|j' m' stored' restored' Hjm Hrest]; subst.
    constructor; [|exact (IH _ Hrest)].
    destruct Hjm as (props & -> & _ & Hprops).
    intros k Hk. cbn [ownProps]. rewrite (Hprops k Hk). exact (Hmj k Hk).
Qed.

(** C10: [goHome] empties the messages and clears the subject but leaves
    the storage as it was, whereas a confirmed [resetChat] removes the
    snapshot; the autosave does not write while the messages are empty;
    so a later startup restores from the very snapshot that was stored
    before [goHome]: when that snapshot holds a non-empty conversation the
    restored messages are that conversation, and when the snapshot had been
    written from the session on the screen (the autosave writes
    [JSON.stringify] of the state, and no message came after it) the
    restored messages are the messages [goHome] cleared from the screen,
    one for one and in order, each with all its properties and its
    timestamp rebuilt from the stored text. *)
Theorem goHome_keeps_snapshot (w : World) :
  (localStorage (goHome w) = localStorage w /\
   messages (state (goHome w)) = [] /\
   selectedSubject (state (goHome w)) = JNull) /\
  localStorage (resetChat true w) !! STORAGE_KEY = None /\
  (forall n, localStorage (Nat.iter n (autosaveTick JSON_stringify) (goHome w))
             = localStorage w) /\
  (forall n, startup JSON_parse
               (localStorage (Nat.iter n (autosaveTick JSON_stringify) (goHome w)))
             = startup JSON_parse (localStorage w)) /\
  (forall raw parsed stored,
      localStorage w !! STORAGE_KEY = Some raw -> raw <> EmptyString ->
      JSON_parse raw = Ok parsed ->
      getProp parsed "messages" = Ok (JArray stored) ->
      stored <> [] ->
      Forall (fun m => m <> JNull /\ m <> JUndefined) stored ->
      messages (state (startup JSON_parse (localStorage (goHome w)))) <> [] /\
      Forall2 Spec.Reconstructed stored
        (messages (state (startup JSON_parse (localStorage (goHome w)))))) /\
  (forall parsed stored,
      localStorage w !! STORAGE_KEY = Some (JSON_stringify (state w)) ->
      JSON_stringify (state w) <> EmptyString ->
      JSON_parse (JSON_stringify (state w)) = Ok parsed ->
      getProp parsed "messages" = Ok (JArray stored) ->
      Forall2 Spec.SameButTimestamp (messages (state w)) stored ->
      Forall (fun m => m <> JNull /\ m <> JUndefined) stored ->
      Forall2 Spec.SameButTimestamp (messages (state w))
        (messages (state (startup JSON_parse (localStorage (goHome w))))) /\
      Forall2 Spec.Reconstructed stored
        (messages (state (startup JSON_parse (localStorage (goHome w)))))).
Proof.
  split; [repeat split|].
  split; [unfold resetChat; cbn [localStorage]; apply lookup_delete_eq|].
  split; [intros n; rewrite autosave_after_goHome; reflexivity|].
  split; [intros n; rewrite autosave_after_goHome; reflexivity|].
  split.
  - intros raw parsed stored Hraw Hne Hparse Hmsgs Hstored Hall.
    cbn [goHome localStorage startup state].
    pose proof (initialState_messages (Ok (localStorage w !! STORAGE_KEY))
                  raw parsed stored ltac:(rewrite Hraw; reflexivity)
                  Hne Hparse Hmsgs Hall) as Hrec.
    split; [|exact Hrec].
    intros Hnil. rewrite Hnil in Hrec. inversion Hrec; subst. contradiction.
  - intros parsed stored Hraw Hne Hparse Hmsgs Hshown Hall.
    cbn [goHome localStorage startup state].
    pose proof (initialState_messages (Ok (localStorage w !! STORAGE_KEY))
                  _ parsed stored ltac:(rewrite Hraw; reflexivity)
                  Hne Hparse Hmsgs Hall) as Hrec.
    split; [|exact Hrec].
    exact (restored_same_messages _ _ _ Hshown Hrec).
Qed.

End Persistence.

(** The restore at the sample snapshot, which was stored with
    [isLoading = true]. *)
Lemma restore_spec_witness :
  App.isLoading (App.initialState Browser.parseSample
                   (JS.Ok (Some Browser.sampleText))) = false /\
  Forall2 Spec.Reconstructed [Browser.sampleMessage]
    (App.messages (App.initialState Browser.parseSample
                     (JS.Ok (Some Browser.sampleText)))).
Proof.
  pose proof (restore_spec Browser.parseSample (JS.Ok (Some Browser.sampleText)))
    as (Hbusy & Hmsgs & _).
  split; [exact Hbusy|].
  apply (Hmsgs Browser.sampleText Browser.sampleSnapshot [Browser.sampleMessage]);
    [reflexivity | discriminate | reflexivity | reflexivity |].
  repeat constructor; discriminate.
Defined.

(** [goHome] on a client whose storage holds the snapshot of the
    conversation on its screen: the restart shows that conversation. *)
Lemma goHome_keeps_snapshot_witness :
  App.localStorage Scenarios.savedWorld !! App.STORAGE_KEY
  = Some (Browser.stringifySample (App.state Scenarios.savedWorld)) /\
  Forall2 Spec.SameButTimestamp
    (App.messages (App.state Scenarios.savedWorld))
    (App.messages
       (App.state
          (App.startup Browser.parseSample
             (App.localStorage (App.goHome Scenarios.savedWorld))))) /\
  Forall2 Spec.Reconstructed [Browser.sampleMessage]
    (App.messages
       (App.state
          (App.startup Browser.parseSample
             (App.localStorage (App.goHome Scenarios.savedWorld))))).
Proof.
  split; [reflexivity|].
  pose proof (goHome_keeps_snapshot Browser.parseSample Browser.stringifySample
                Scenarios.savedWorld)
    as (_ & _ & _ & _ & _ & Hrestore).
  apply (Hrestore Browser.sampleSnapshot [Browser.sampleMessage]);
    [reflexivity | discriminate | reflexivity | reflexivity | |].
  - constructor; [|constructor].
    intros k Hk. cbn [App.ownProps Browser.sampleMessage Scenarios.sampleQuestion
                      App.lookupProp].
    repeat match goal with
           | |- context [String.eqb k ?key] =>
               destruct (String.eqb_spec k key); [try reflexivity; contradiction|]
           end.
    reflexivity.
  - repeat constructor; discriminate.
Defined.

(** The claim without the proviso fails: the storage holds a non-empty
    snapshot, the screen shows the stored message and a reply that came
    after the last autosave; [goHome] clears two messages and the restart
    brings back one. *)
Lemma goHome_stale_snapshot_counterexample :
  App.localStorage Scenarios.staleWorld !! App.STORAGE_KEY = Some Browser.sampleText /\
  Browser.parseSample Browser.sampleText = JS.Ok Browser.sampleSnapshot /\
  App.getProp Browser.sampleSnapshot "messages"
  = JS.Ok (App.JArray [Browser.sampleMessage]) /\
  List.length (App.messages (App.state Scenarios.staleWorld)) = 2 /\
  List.length
    (App.messages
       (App.state
          (App.startup Browser.parseSample
             (App.localStorage (App.goHome Scenarios.staleWorld))))) = 1 /\
  ~ Forall2 Spec.SameButTimestamp
      (App.messages (App.state Scenarios.staleWorld))
      (App.messages
         (App.state
            (App.startup Browser.parseSample
               (App.localStorage (App.goHome Scenarios.staleWorld))))).
Proof.
  split; [reflexivity|]. split; [reflexivity|]. split; [reflexivity|].
  split; [reflexivity|]. split; [reflexivity|].
  intros H. apply Forall2_length in H. vm_compute in H. discriminate.
Qed.

Example goHome_then_restart :
  let w := App.autosaveTick Browser.stringifySample
             (App.startup Browser.parseSample {[ App.STORAGE_KEY := Browser.sampleText ]}) in
  App.messages (App.state (App.goHome w)) = [] /\
  App.messages (App.state (App.startup Browser.parseSample
                             (App.localStorage (App.goHome w))))
  = App.messages (App.state w) /\
  App.messages (App.state (App.startup Browser.parseSample
                             (App.localStorage (App.resetChat true w)))) = [].
Proof. vm_compute. repeat split; reflexivity. Qed.

(* ===================================================================== *)
(** ** The service call as a whole *)
(* ===================================================================== *)

Section Service.
Import JS GeminiService.

Variable atob : string -> result string.
Variable TextDecoder_decode : list Byte.byte -> result string.
Variable generateContent : Request -> result GenerateContentResponse.

(** [sendMessageToGemini] always resolves with a response. *)
Lemma sendMessageToGemini_total (prompt : string) (history : list Message)
    (att : option Attachment) :
  exists r, sendMessageToGemini atob TextDecoder_decode generateContent
              prompt history att = Ok r.
Proof.
  unfold sendMessageToGemini.
  destruct (buildRequest_total atob TextDecoder_decode prompt history att)
    as [request ->].
  cbn [bind]. destruct (generateContent request); cbn [bind tryCatch]; eauto.
Qed.

(** A failure of the backend gives the fixed apology. *)
Lemma sendMessageToGemini_backend_failure (prompt : string)
    (history : list Message) (att : option Attachment) (request : Request) (e : exn) :
  buildRequest atob TextDecoder_decode prompt history att = Ok request ->
  generateContent request = Throw e ->
  sendMessageToGemini atob TextDecoder_decode generateContent prompt history att
  = Ok errorResponse.
Proof.
  intros Hreq Hgen. unfold sendMessageToGemini. rewrite Hreq. cbn [bind].
  rewrite Hgen. reflexivity.
Qed.

End Service.

Example pie_chart_end_to_end :
  GeminiService.sendMessageToGemini Browser.atob Browser.decodeBytes
    Browser.imageBackend
    (App.promptContext None "Generate Image: pie chart of expenses") [] None
  = JS.Ok {| GeminiService.reply_text :=
               "Here is the visual representation you requested.";
             GeminiService.generatedImage :=
               Some "data:image/png;base64,iVBORw0KGgo=" |}.
Proof. reflexivity. Qed.

Example csv_end_to_end :
  GeminiService.buildRequest Browser.atob Browser.decodeBytes
    "sum column a" [] (Some Browser.sampleCsv)
  = JS.Ok (GeminiService.ChatRequest
             [{| GeminiService.content_role := GeminiService.user;
                 GeminiService.parts :=
                   [GeminiService.TextPart
                      (Spec.fileBlock "t.csv" Browser.sampleCsvText +:+ JS.LF +:+ JS.LF);
                    GeminiService.TextPart "sum column a"] |}]).
Proof. reflexivity. Qed.

(* ===================================================================== *)
(** ** The turns of a chat request *)
(* ===================================================================== *)

Section ChatRequests.
Import JS GeminiService.

Variable atob : string -> result string.
Variable TextDecoder_decode : list Byte.byte -> result string.

Lemma historyContent_shape (msg : Message) :
  exists attached,
    historyContent atob TextDecoder_decode msg
    = Ok {| content_role := role msg; parts := attached ++ [TextPart (text msg)] |}.
Proof.
  unfold historyContent.
  destruct (attachment msg) as [att|].
  - destruct (isTextBased (mimeType att)).
    + destruct (decodeBase64Text_total atob TextDecoder_decode
                  (base64Data (data att))) as [s ->].
      eexists. reflexivity.
    + eexists. reflexivity.
  - destruct (image msg) as [img|]; [destruct (truthy img)|];
      eexists; reflexivity.
Qed.

Lemma historyContents_shape (history : list Message) :
  exists cs,
    historyContents atob TextDecoder_decode history = Ok cs /\
    List.map content_role cs = List.map role history /\
    List.map (fun c => last (parts c)) cs
    = List.map (fun m => Some (TextPart (text m))) history.
Proof.
  induction history as [|msg rest (cs & Hcs & Hroles & Hlast)]; simpl.
  - exists []. repeat split.
  - destruct (historyContent_shape msg) as [attached ->]. rewrite Hcs.
    cbn [bind]. eexists. split; [reflexivity|].
    cbn [List.map content_role parts]. rewrite Hroles, Hlast, last_snoc.
    split; reflexivity.
Qed.

(** X1: a prompt that does not start with "Generate Image:" is sent as a
    chat request with one turn per earlier message, in the order of the
    history and with the role of each message, followed by one user turn;
    every turn ends with the text of its message, the last one with the
    prompt. *)
Theorem chat_request_turns (prompt : string) (history : list Message)
    (att : option Attachment) :
  startsWith prompt "Generate Image:" = false ->
  exists contents,
    buildRequest atob TextDecoder_decode prompt history att
    = Ok (ChatRequest contents) /\
    length contents = S (length history) /\
    List.map content_role contents = List.map role history ++ [user] /\
    List.map (fun c => last (parts c)) contents
    = List.map (fun m => Some (TextPart (text m))) history
      ++ [Some (TextPart prompt)].
Proof.
  intros Hp. unfold buildRequest. rewrite Hp.
  destruct (historyContents_shape history) as (cs & -> & Hroles & Hlast).
  destruct (currentContent_total atob TextDecoder_decode prompt att)
    as [attached ->].
  cbn [bind]. eexists. split; [reflexivity|].
  rewrite length_app, !List.map_app.
  cbn [List.map content_role parts length].
  rewrite Hroles, Hlast, last_snoc.
  assert (Hlen : length cs = length history).
  { rewrite <- (List.length_map content_role cs), Hroles.
    apply List.length_map. }
  rewrite Hlen. repeat split. lia.
Qed.

Lemma inlineCount_app (ps qs : list Part) :
  Props.inlineCount (ps ++ qs) = Props.inlineCount ps + Props.inlineCount qs.
Proof.
  unfold Props.inlineCount. rewrite List.filter_app, length_app. reflexivity.
Qed.

(** X2: a turn built from an earlier message carries at most one
    inline-data part: none when its attachment is text based, one when its
    attachment is not (a legacy image beside an attachment is ignored), and
    without attachment one exactly when the message has a non-empty legacy
    image. *)
Theorem inline_parts_per_turn (msg : Message) :
  exists c,
    historyContent atob TextDecoder_decode msg = Ok c /\
    Props.inlineCount (parts c) <= 1 /\
    (forall att, attachment msg = Some att ->
                 Props.inlineCount (parts c)
                 = if isTextBased (mimeType att) then 0 else 1) /\
    (attachment msg = None ->
     (Props.inlineCount (parts c) = 1 <->
      exists img, image msg = Some img /\ img <> EmptyString)).
Proof.
  unfold historyContent.
  destruct (attachment msg) as [att|].
  - destruct (isTextBased (mimeType att)) eqn:Htext.
    + destruct (decodeBase64Text_total atob TextDecoder_decode
                  (base64Data (data att))) as [s ->].
      eexists. split; [reflexivity|]. cbn. split; [lia|].
      split; [intros att' [= <-]; rewrite Htext; reflexivity|discriminate].
    + eexists. split; [reflexivity|]. cbn. split; [lia|].
      split; [intros att' [= <-]; rewrite Htext; reflexivity|discriminate].
  - destruct (image msg) as [img|].
    + destruct img as [|ch img]; cbn [truthy];
        (eexists; split; [reflexivity|]); cbn;
        (split; [lia|]); (split; [discriminate|]); intros _; split.
      * discriminate.
      * intros (img' & [= <-] & Hne). contradiction.
      * intros _. eexists. split; [reflexivity|discriminate].
      * reflexivity.
    + eexists. split; [reflexivity|]. cbn. split; [lia|].
      split; [discriminate|]. intros _. split; [discriminate|].
      intros (img & Himg & _). discriminate.
Qed.

End ChatRequests.

(** The theorem at a question asked after one earlier message, with the
    CSV attached. *)
Lemma chat_request_turns_witness :
  exists contents,
    GeminiService.buildRequest Browser.atob Browser.decodeBytes
      "sum column a" [Browser.sampleUserMessage] (Some Browser.sampleCsv)
    = JS.Ok (GeminiService.ChatRequest contents) /\
    length contents = 2 /\
    List.map GeminiService.content_role contents
    = [GeminiService.user; GeminiService.user] /\
    List.map (fun c => last (GeminiService.parts c)) contents
    = [Some (GeminiService.TextPart "Depreciation");
       Some (GeminiService.TextPart "sum column a")].
Proof.
  exact (chat_request_turns Browser.atob Browser.decodeBytes "sum column a"
           [Browser.sampleUserMessage] (Some Browser.sampleCsv) eq_refl).
Defined.

(* ===================================================================== *)
(** ** What the service answers *)
(* ===================================================================== *)

Section Replies.
Import JS GeminiService.

Variable atob : string -> result string.
Variable TextDecoder_decode : list Byte.byte -> result string.
Variable generateContent : Request -> result GenerateContentResponse.

Lemma imageResult_text_nonempty (response : GenerateContentResponse) :
  reply_text (imageResult response) <> EmptyString.
Proof.
  unfold imageResult.
  destruct (match candidate_parts response with
            | Some ps => fold_left imageLoopBody ps (EmptyString, None)
            | None => (EmptyString, None)
            end) as [txt img].
  cbn [reply_text]. destruct txt; cbn [truthy]; discriminate.
Qed.

Lemma chatResult_text_nonempty (response : GenerateContentResponse) :
  reply_text (chatResult response) <> EmptyString /\
  generatedImage (chatResult response) = None.
Proof.
  unfold chatResult.
  destruct (response_text response) as [[|c t]|]; cbn; split;
    (discriminate || reflexivity).
Qed.

(** The three ways [sendMessageToGemini] ends. *)
Lemma sendMessageToGemini_cases (prompt : string) (history : list Message)
    (att : option Attachment) :
  exists request,
    buildRequest atob TextDecoder_decode prompt history att = Ok request /\
    sendMessageToGemini atob TextDecoder_decode generateContent prompt history att
    = Ok match generateContent request with
         | Ok response => readResponse request response
         | Throw _ => errorResponse
         end.
Proof.
  destruct (buildRequest_total atob TextDecoder_decode prompt history att)
    as [request Hreq].
  exists request. split; [exact Hreq|].
  unfold sendMessageToGemini. rewrite Hreq. cbn [bind].
  destruct (generateContent request); reflexivity.
Qed.

(** X3: whatever the backend does (an answer with or without text, with
    or without parts, or a failure) and whatever the attachments hold,
    [sendMessageToGemini] resolves with a response whose text is not
    empty. *)
Theorem reply_never_empty (prompt : string) (history : list Message)
    (att : option Attachment) :
  exists r,
    sendMessageToGemini atob TextDecoder_decode generateContent prompt history att
    = Ok r /\
    reply_text r <> EmptyString.
Proof.
  destruct (sendMessageToGemini_cases prompt history att) as (request & _ & ->).
  eexists. split; [reflexivity|].
  destruct (generateContent request) as [response|e]; [|discriminate].
  destruct request; cbn [readResponse].
  - apply imageResult_text_nonempty.
  - apply chatResult_text_nonempty.
Qed.

(** X4: a response carries a generated image only on the image flow: the
    prompt then starts with "Generate Image:", the backend answered the
    image request for the trimmed rest of the prompt, and the image is the
    one read from that answer.  A chat answer and the answer after a
    failure carry none. *)
Theorem image_only_from_image_flow (prompt : string) (history : list Message)
    (att : option Attachment) (r : GeminiResponse) :
  sendMessageToGemini atob TextDecoder_decode generateContent prompt history att
  = Ok r ->
  generatedImage r <> None ->
  startsWith prompt "Generate Image:" = true /\
  exists response,
    generateContent (ImageRequest (trim (substring prompt 15))) = Ok response /\
    r = imageResult response.
Proof.
  intros Hsend Himg.
  destruct (sendMessageToGemini_cases prompt history att) as (request & Hreq & Hres).
  rewrite Hres in Hsend. injection Hsend as <-.
  unfold buildRequest in Hreq.
  destruct (startsWith prompt "Generate Image:") eqn:Hp.
  - split; [reflexivity|].
    rewrite (JSFacts.replace_startsWith _ _ Hp) in Hreq.
    change (String.length "Generate Image:") with 15 in Hreq.
    injection Hreq as <-.
    destruct (generateContent _) as [response|e]; [|contradiction].
    exists response. split; reflexivity.
  - exfalso.
    destruct (historyContents_total atob TextDecoder_decode history) as [cs Hcs].
    destruct (currentContent_total atob TextDecoder_decode prompt att)
      as [attached Hcur].
    rewrite Hcs, Hcur in Hreq. cbn [bind] in Hreq. injection Hreq as <-.
    destruct (generateContent _) as [response|e]; [|contradiction].
    cbn [readResponse] in Himg.
    apply Himg, chatResult_text_nonempty.
Qed.

End Replies.

(** The theorem at the pie chart answered with one image. *)
Lemma image_only_from_image_flow_witness :
  JS.startsWith "Generate Image: pie chart of expenses" "Generate Image:" = true /\
  exists response,
    Browser.imageBackend
      (GeminiService.ImageRequest
         (JS.trim (JS.substring "Generate Image: pie chart of expenses" 15)))
    = JS.Ok response /\
    {| GeminiService.reply_text := "Here is the visual representation you requested.";
       GeminiService.generatedImage := Some "data:image/png;base64,iVBORw0KGgo=" |}
    = GeminiService.imageResult response.
Proof.
  refine (image_only_from_image_flow Browser.atob Browser.decodeBytes
            Browser.imageBackend "Generate Image: pie chart of expenses" [] None
            _ eq_refl _).
  discriminate.
Defined.

(* ===================================================================== *)
(** ** The subject tag and the image prefix *)
(* ===================================================================== *)

Section SubjectTag.
Import JS GeminiService.

Variable atob : string -> result string.
Variable TextDecoder_decode : list Byte.byte -> result string.

(** X5: with a non-empty subject selected, no draft is sent as an image
    request, not even one that starts with "Generate Image: ": the prompt
    given to the service starts with the subject tag, so the request is the
    chat request whose last turn ends with the tagged draft. *)
Theorem subject_forces_chat (subject draft : string) (history : list Message)
    (att : option Attachment) :
  subject <> EmptyString ->
  exists earlier attached,
    buildRequest atob TextDecoder_decode
      (App.promptContext (Some subject) draft) history att
    = Ok (ChatRequest
            (earlier ++
             [{| content_role := user;
                 parts := attached ++
                          [TextPart ("[Subject: " +:+ subject +:+ "] " +:+ draft)] |}])).
Proof.
  intros Hne. unfold App.promptContext.
  destruct subject as [|c subject]; [contradiction|]. cbn [truthy].
  set (prompt := "[Subject: " +:+ String c subject +:+ "] " +:+ draft).
  assert (Hp : startsWith prompt "Generate Image:" = false) by reflexivity.
  unfold buildRequest. rewrite Hp.
  destruct (historyContents_total atob TextDecoder_decode history) as [cs ->].
  destruct (currentContent_total atob TextDecoder_decode prompt att)
    as [attached ->].
  cbn [bind]. eauto.
Qed.

End SubjectTag.

(** The theorem at the pie chart asked under the subject "Taxation". *)
Lemma subject_forces_chat_witness :
  exists earlier attached,
    GeminiService.buildRequest Browser.atob Browser.decodeBytes
      (App.promptContext (Some "Taxation") "Generate Image: pie chart of expenses")
      [] None
    = JS.Ok (GeminiService.ChatRequest
               (earlier ++
                [{| GeminiService.content_role := GeminiService.user;
                    GeminiService.parts :=
                      attached ++
                      [GeminiService.TextPart
                         ("[Subject: " +:+ "Taxation" +:+ "] " +:+
                          "Generate Image: pie chart of expenses")] |}])).
Proof.
  apply (subject_forces_chat Browser.atob Browser.decodeBytes "Taxation"
           "Generate Image: pie chart of expenses" [] None).
  discriminate.
Defined.

(* ===================================================================== *)
(** ** Data URLs: stripping the prefix, and the way back from an image *)
(* ===================================================================== *)

Section DataUrls.
Import JS GeminiService.

Variable atob : string -> result string.
Variable TextDecoder_decode : list Byte.byte -> result string.

Lemma freeOf_app (c : ascii) (a b : string) :
  Spec.freeOf c (a +:+ b) = Spec.freeOf c a && Spec.freeOf c b.
Proof.
  induction a as [|x a IH]; simpl; [reflexivity|].
  rewrite IH. apply andb_assoc.
Qed.

(** X6: a data string without comma is passed on unchanged, and a data
    URL whose payload after the first comma is not empty and holds no
    further comma is passed on as that payload alone. *)
Theorem base64Data_strips_prefix (s : string) :
  (Spec.freeOf ","%char s = true -> base64Data s = s) /\
  (forall header payload,
      s = header +:+ String ","%char payload ->
      Spec.freeOf ","%char header = true ->
      Spec.freeOf ","%char payload = true ->
      payload <> EmptyString ->
      base64Data s = payload).
Proof.
  split.
  - apply base64Data_no_comma.
  - intros header payload -> Hh Hp Hne. apply base64Data_data_url; assumption.
Qed.

(** X7: an image read from an image response comes back in the history
    of later requests: the turn of the model message holds one inline-data
    part whose payload is the base64 data of the last inline image of the
    response, the data URL built around it being stripped again, but
    tagged "image/jpeg" whatever media type the response gave. *)
Theorem generated_image_in_history (ps : list ResponsePart) (txt : option string)
    (mediaType payload uuid : string) (now : Z) :
  Spec.freeOf ","%char mediaType = true ->
  Spec.freeOf ","%char payload = true ->
  payload <> EmptyString ->
  last (Spec.inlineImages ps)
  = Some ("data:" +:+ mediaType +:+ ";base64," +:+ payload) ->
  historyContent atob TextDecoder_decode
    (Conversation.aiMessage uuid now
       (imageResult {| candidate_parts := Some ps; response_text := txt |}))
  = Ok {| content_role := model;
          parts := [InlineData "image/jpeg" payload;
                    TextPart (reply_text
                                (imageResult {| candidate_parts := Some ps;
                                                response_text := txt |}))] |}.
Proof.
  intros Hm Hp Hne Hlast.
  unfold historyContent, Conversation.aiMessage.
  cbn [attachment image role text].
  assert (Himg : generatedImage
                   (imageResult {| candidate_parts := Some ps; response_text := txt |})
                 = Some ("data:" +:+ mediaType +:+ ";base64," +:+ payload)).
  { unfold imageResult. cbn [candidate_parts].
    rewrite imageLoop_spec, Hlast. reflexivity. }
  rewrite Himg.
  assert (Htruthy : truthy ("data:" +:+ mediaType +:+ ";base64," +:+ payload) = true)
    by reflexivity.
  rewrite Htruthy. cbn [bind].
  assert (Hurl : "data:" +:+ mediaType +:+ ";base64," +:+ payload
                 = ("data:" +:+ mediaType +:+ ";base64") +:+ String ","%char payload).
  { cbn [String.append]. rewrite JSFacts.append_assoc. reflexivity. }
  rewrite Hurl, base64Data_data_url; try assumption; [reflexivity|].
  cbn [String.append Spec.freeOf Ascii.eqb Bool.eqb negb andb].
  rewrite freeOf_app, Hm. reflexivity.
Qed.

End DataUrls.

(** The theorem at the data URL of the CSV attachment. *)
Lemma base64Data_strips_prefix_witness :
  GeminiService.base64Data "data:text/csv;base64,YSxiCjEsMg==" = "YSxiCjEsMg==".
Proof.
  apply (proj2 (base64Data_strips_prefix "data:text/csv;base64,YSxiCjEsMg==")
           "data:text/csv;base64" "YSxiCjEsMg==");
    [reflexivity | reflexivity | reflexivity | discriminate].
Defined.

(** The theorem at the response with two PNG images. *)
Lemma generated_image_in_history_witness :
  GeminiService.historyContent Browser.atob Browser.decodeBytes
    (Conversation.aiMessage "m3" 2%Z (GeminiService.imageResult Browser.twoImages))
  = JS.Ok {| GeminiService.content_role := GeminiService.model;
             GeminiService.parts :=
               [GeminiService.InlineData "image/jpeg" "BBBB";
                GeminiService.TextPart
                  (GeminiService.reply_text
                     (GeminiService.imageResult Browser.twoImages))] |}.
Proof.
  refine (generated_image_in_history Browser.atob Browser.decodeBytes
            (default [] (GeminiService.candidate_parts Browser.twoImages))
            None "image/png" "BBBB" "m3" 2%Z eq_refl eq_refl _ eq_refl).
  discriminate.
Defined.

(* ===================================================================== *)
(** ** From the picked file to the parts that are sent *)
(* ===================================================================== *)

Section PickedFiles.
Import JS GeminiService InputArea.

Variable atob : string -> result string.
Variable TextDecoder_decode : list Byte.byte -> result string.

Lemma currentContent_inlineCount (prompt : string) (att : Attachment) :
  exists c,
    currentContent atob TextDecoder_decode prompt (Some att) = Ok c /\
    Props.inlineCount (parts c) = if isTextBased (mimeType att) then 0 else 1.
Proof.
  unfold currentContent.
  destruct (isTextBased (mimeType att)).
  - destruct (decodeBase64Text_total atob TextDecoder_decode
                (base64Data (data att))) as [s ->].
    eexists. split; reflexivity.
  - eexists. split; reflexivity.
Qed.

(** X8: a picked file whose declared media type is missing or generic and
    whose extension is in the table is sent as decoded text, with no
    inline-data part, for every entry of the table except pdf; a pdf is
    sent with exactly one inline-data part. *)
Theorem picked_file_parts (declared fileName readerResult prompt e t : string) :
  declared = EmptyString \/ declared = "application/octet-stream" ->
  In (e, t) Spec.extensionTable ->
  fileExt fileName = Some e ->
  isTextBased (resolveMimeType {| file_type := declared; file_name := fileName |})
  = negb (String.eqb e "pdf") /\
  exists c,
    currentContent atob TextDecoder_decode prompt
      (Some (handleFileSelect {| file_type := declared; file_name := fileName |}
               readerResult))
    = Ok c /\
    Props.inlineCount (parts c) = if String.eqb e "pdf" then 1 else 0.
Proof.
  intros Hdecl Hin Hext.
  assert (Hres : resolveMimeType {| file_type := declared; file_name := fileName |} = t).
  { unfold resolveMimeType. cbn [file_type file_name].
    rewrite Hext, (switchExt_complete _ _ Hin).
    assert (Hgen : negb (truthy declared) ||
                   String.eqb declared "application/octet-stream" = true)
      by (destruct Hdecl as [->| ->]; reflexivity).
    rewrite Hgen. unfold Spec.extensionTable in Hin. simpl in Hin.
    repeat (destruct Hin as [Hin|Hin]; [inversion Hin; subst; reflexivity|]).
    contradiction. }
  assert (Htext : isTextBased t = negb (String.eqb e "pdf")).
  { unfold Spec.extensionTable in Hin. simpl in Hin.
    repeat (destruct Hin as [Hin|Hin]; [inversion Hin; subst; reflexivity|]).
    contradiction. }
  split; [rewrite Hres; exact Htext|].
  destruct (currentContent_inlineCount prompt
              (handleFileSelect {| file_type := declared; file_name := fileName |}
                 readerResult)) as (c & Hc & Hcount).
  exists c. split; [exact Hc|].
  rewrite Hcount. unfold handleFileSelect. cbn [mimeType].
  rewrite Hres, Htext. destruct (String.eqb e "pdf"); reflexivity.
Qed.

End PickedFiles.

(** The theorem at a Markdown file picked without a media type. *)
Lemma picked_file_parts_witness :
  GeminiService.isTextBased
    (InputArea.resolveMimeType
       {| InputArea.file_type := EmptyString; InputArea.file_name := "Notes.MD" |})
  = negb (String.eqb "md" "pdf") /\
  exists c,
    GeminiService.currentContent Browser.atob Browser.decodeBytes "summarise"
      (Some (InputArea.handleFileSelect
               {| InputArea.file_type := EmptyString;
                  InputArea.file_name := "Notes.MD" |}
               "data:;base64,IyBOb3Rlcw=="))
    = JS.Ok c /\
    Props.inlineCount (GeminiService.parts c) = if String.eqb "md" "pdf" then 1 else 0.
Proof.
  apply (picked_file_parts Browser.atob Browser.decodeBytes EmptyString "Notes.MD"
           "data:;base64,IyBOb3Rlcw==" "summarise" "md" "text/markdown");
    [left; reflexivity | simpl; auto | reflexivity].
Defined.

(* ===================================================================== *)
(** ** Switching from one intent to another *)
(* ===================================================================== *)

Section SwitchIntent.
Import JS InputArea.

(** No recognised prefix begins a text that starts with another one. *)
Lemma recognized_prefixes_exclusive (r : string) :
  startsWith ("Explain the concept of " +:+ r) "Exam Note: " = false /\
  startsWith ("Explain the concept of " +:+ r) "Generate Image: " = false /\
  startsWith ("Exam Note: " +:+ r) "Explain the concept of " = false /\
  startsWith ("Exam Note: " +:+ r) "Generate Image: " = false /\
  startsWith ("Generate Image: " +:+ r) "Explain the concept of " = false /\
  startsWith ("Generate Image: " +:+ r) "Exam Note: " = false.
Proof. repeat split; reflexivity. Qed.

(** X9: on a draft made of the prefix of one intent followed by a rest
    that starts with none of the three prefixes, the click on a different
    intent replaces the prefix: the new draft is the prefix of the clicked
    intent followed by the same rest. *)
Theorem toggle_switches_intent (i j : Intent) (rest : string) :
  i <> j ->
  (forall q, In q Spec.recognizedPrefixes -> startsWith rest q = false) ->
  toggle i (intentPrefix j +:+ rest) = intentPrefix i +:+ rest.
Proof.
  intros Hij H.
  assert (H1 := H "Explain the concept of " ltac:(simpl; auto)).
  assert (H2 := H "Exam Note: " ltac:(simpl; auto)).
  assert (H3 := H "Generate Image: " ltac:(simpl; auto)).
  destruct (recognized_prefixes_exclusive rest) as (E1 & E2 & E3 & E4 & E5 & E6).
  destruct i, j; try contradiction; cbn [toggle intentPrefix];
    unfold handleExplainClick, handleExamModeClick, handleChartClick,
      togglePrefix, removePrefixes; cbn [fold_left];
    repeat first
      [ progress rewrite ?E1, ?E2, ?E3, ?E4, ?E5, ?E6, ?H1, ?H2, ?H3,
          ?JSFacts.startsWith_app, ?JSFacts.substring_app
      | progress cbv beta iota ];
    reflexivity.
Qed.

End SwitchIntent.

(** The theorem at a draft in exam-note mode, switched to the chart. *)
Lemma toggle_switches_intent_witness :
  InputArea.toggle InputArea.GenerateImage ("Exam Note: " +:+ "cash flow by quarter")
  = "Generate Image: " +:+ "cash flow by quarter".
Proof.
  apply (toggle_switches_intent InputArea.GenerateImage InputArea.ExamNote
           "cash flow by quarter"); [discriminate|].
  intros q Hq. simpl in Hq.
  repeat (destruct Hq as [<-|Hq]; [reflexivity|]). contradiction.
Defined.

(* ===================================================================== *)
(** ** Narrowing a search *)
(* ===================================================================== *)

Section SearchNarrowing.
Import JS GeminiService.

(** On code units 0..255 the lower case goes through a concatenation; this
    is a fact of that range only (see [toLowerCase]). *)
Lemma toLowerCase_app (a b : string) :
  toLowerCase (a +:+ b) = toLowerCase a +:+ toLowerCase b.
Proof. induction a as [|c a IH]; simpl; [reflexivity|rewrite IH; reflexivity]. Qed.

(** ... so there the lower case of a longer term starts with the lower case
    of the term it extends. *)
Lemma toLowerCase_prefix (term more : string) :
  startsWith (toLowerCase (term +:+ more)) (toLowerCase term) = true.
Proof. rewrite toLowerCase_app. apply JSFacts.startsWith_iff. eauto. Qed.

Lemma trimEnd_blank (s : string) :
  trimEnd s = EmptyString -> Props.blank s = true.
Proof.
  induction s as [|c s IH]; simpl; [reflexivity|].
  destruct (trimEnd s); [|discriminate].
  destruct (isWhiteSpace c); [intros _; apply IH; reflexivity|discriminate].
Qed.

Lemma trimStart_blank (s : string) :
  Props.blank (trimStart s) = true -> Props.blank s = true.
Proof.
  induction s as [|c s IH]; simpl; [reflexivity|].
  destruct (isWhiteSpace c) eqn:Hc; [exact IH|].
  simpl. rewrite Hc. discriminate.
Qed.

Lemma blank_trimStart (s : string) :
  Props.blank s = true -> trimStart s = EmptyString.
Proof.
  induction s as [|c s IH]; simpl; [reflexivity|].
  destruct (isWhiteSpace c); [exact IH|discriminate].
Qed.

(** [trim] gives the empty string exactly on white space. *)
Lemma trim_empty_blank (s : string) :
  trim s = EmptyString <-> Props.blank s = true.
Proof.
  unfold trim. split.
  - intros H. apply trimStart_blank, trimEnd_blank, H.
  - intros H. rewrite (blank_trimStart _ H). reflexivity.
Qed.

Lemma blank_app (a b : string) :
  Props.blank (a +:+ b) = Props.blank a && Props.blank b.
Proof.
  induction a as [|c a IH]; simpl; [reflexivity|].
  rewrite IH. apply andb_assoc.
Qed.

Lemma occursIn_app_l (a b s : string) :
  Spec.occursIn (a +:+ b) s -> Spec.occursIn a s.
Proof.
  intros (pre & post & ->). exists pre, (b +:+ post).
  rewrite JSFacts.append_assoc. reflexivity.
Qed.

Lemma filter_sublist {A} (f : A -> bool) (l : list A) :
  sublist (List.filter f l) l.
Proof.
  induction l as [|x l IH]; simpl; [constructor|].
  destruct (f x); constructor; exact IH.
Qed.

Lemma filter_sublist_filter {A} (f g : A -> bool) (l : list A) :
  (forall x, f x = true -> g x = true) ->
  sublist (List.filter f l) (List.filter g l).
Proof.
  intros Hfg. induction l as [|x l IH]; simpl; [constructor|].
  destruct (f x) eqn:Hf.
  - rewrite (Hfg x Hf). constructor. exact IH.
  - destruct (g x); [constructor|]; exact IH.
Qed.

(** X10: the displayed messages are always taken from the messages, in
    their order; and typing further characters after a search term never
    brings a message back, provided the lower case of the longer term
    starts with the lower case of the shorter one: then what is displayed
    for the longer term is, in order, among what was displayed for the
    shorter one.  The proof uses nothing else about the lower case. *)
Theorem search_narrows (ms : list Message) (term more : string) :
  sublist (App.displayedMessages ms term) ms /\
  (startsWith (toLowerCase (term +:+ more)) (toLowerCase term) = true ->
   sublist (App.displayedMessages ms (term +:+ more))
           (App.displayedMessages ms term)).
Proof.
  split.
  - unfold App.displayedMessages.
    destruct (truthy (trim term)); [apply filter_sublist|reflexivity].
  - intros Hprefix. apply JSFacts.startsWith_iff in Hprefix as [rest Hrest].
    unfold App.displayedMessages.
    destruct (truthy (trim term)) eqn:Ht.
    + destruct (truthy (trim (term +:+ more))) eqn:Htm.
      * apply filter_sublist_filter. intros m Hm.
        apply JSFacts.includes_occursIn in Hm.
        apply JSFacts.includes_occursIn.
        rewrite Hrest in Hm. exact (occursIn_app_l _ _ _ Hm).
      * exfalso. apply trim_truthy, trim_empty_blank in Htm.
        rewrite blank_app in Htm. apply andb_prop in Htm as [Hb _].
        apply trim_empty_blank in Hb. rewrite Hb in Ht. discriminate.
    + destruct (truthy (trim (term +:+ more)));
        [apply filter_sublist|reflexivity].
Qed.

(** Typing on from [dep] to [depreciation]. *)
Lemma search_narrows_witness :
  sublist (App.displayedMessages [Browser.sampleUserMessage] "depreciation")
          (App.displayedMessages [Browser.sampleUserMessage] "dep").
Proof.
  apply (proj2 (search_narrows [Browser.sampleUserMessage] "dep" "reciation")).
  reflexivity.
Defined.

End SearchNarrowing.

(* ===================================================================== *)
(** ** The snapshot: damaged messages, reset, autosave *)
(* ===================================================================== *)

Section Snapshot.
Import JS App.

Variable JSON_parse : string -> result JSValue.
Variable JSON_stringify : ChatState -> string.

Lemma mapM_throws {A B} (f : A -> result B) (l : list A) (a : A) (e : exn) :
  In a l -> f a = Throw e -> exists e', mapM f l = Throw e'.
Proof.
  intros Hin Hf. induction l as [|x l IH]; [contradiction|].
  simpl. destruct Hin as [->|Hin].
  - rewrite Hf. simpl. eauto.
  - destruct (f x); simpl; [|eauto].
    destruct (IH Hin) as [e' ->]. simpl. eauto.
Qed.

(** X11: the restore is all or nothing: when one element of the stored
    [messages] array is [null], the whole snapshot is given up and the
    client starts with the empty default state, the other stored messages
    and the stored subject included. *)
Theorem restore_gives_up_on_null (read : result (option string))
    (raw : string) (parsed : JSValue) (stored : list JSValue) :
  read = Ok (Some raw) ->
  JSON_parse raw = Ok parsed ->
  getProp parsed "messages" = Ok (JArray stored) ->
  In JNull stored ->
  initialState JSON_parse read = defaultState.
Proof.
  intros -> Hparse Hmsgs Hnull.
  unfold initialState, loadState. cbn [bind].
  destruct (truthy raw); [|reflexivity].
  rewrite Hparse. cbn [bind]. rewrite Hmsgs. cbn [bind arrayMap].
  destruct (mapM_throws restoreMessage stored JNull TypeError Hnull eq_refl)
    as [e' ->].
  reflexivity.
Qed.

(** X12: after a confirmed reset the next start finds no snapshot,
    whatever was stored and however often the autosave fires in between:
    the restarted client has the empty default state.  A declined reset
    changes nothing. *)
Theorem reset_then_restart (w : World) (n : nat) :
  state (startup JSON_parse
           (localStorage (Nat.iter n (autosaveTick JSON_stringify)
                            (resetChat true w))))
  = defaultState /\
  resetChat false w = w.
Proof.
  split; [|reflexivity].
  assert (Hiter : Nat.iter n (autosaveTick JSON_stringify) (resetChat true w)
                  = resetChat true w).
  { induction n as [|n IH]; [reflexivity|].
    rewrite Nat.iter_succ, IH. reflexivity. }
  rewrite Hiter. unfold startup, resetChat. cbn [state localStorage].
  rewrite lookup_delete_eq. reflexivity.
Qed.

(** X13: the autosave never changes the session state and touches no
    other key of the storage; with an empty message list it writes nothing,
    otherwise the snapshot key holds the serialised current state, which
    replaces the earlier snapshot; and firing twice in a row leaves what
    firing once leaves. *)
Theorem autosave_writes_snapshot (w : World) :
  state (autosaveTick JSON_stringify w) = state w /\
  (forall k, k <> STORAGE_KEY ->
             localStorage (autosaveTick JSON_stringify w) !! k
             = localStorage w !! k) /\
  (messages (state w) = [] -> autosaveTick JSON_stringify w = w) /\
  (messages (state w) <> [] ->
   localStorage (autosaveTick JSON_stringify w) !! STORAGE_KEY
   = Some (JSON_stringify (state w))) /\
  autosaveTick JSON_stringify (autosaveTick JSON_stringify w)
  = autosaveTick JSON_stringify w.
Proof.
  unfold autosaveTick.
  destruct (messages (state w)) as [|m ms] eqn:Hms; cbn [length Nat.ltb Nat.leb].
  - rewrite Hms. cbn. repeat split; try reflexivity. intros H. contradiction.
  - cbn [state localStorage searchTerm]. rewrite Hms. cbn [length Nat.ltb Nat.leb].
    cbn [state localStorage searchTerm].
    repeat split.
    + intros k Hk. apply lookup_insert_ne. congruence.
    + discriminate.
    + intros _. apply lookup_insert_eq.
    + rewrite insert_insert_eq. reflexivity.
Qed.

End Snapshot.

(** The theorem at a snapshot whose second message is [null]. *)
Lemma restore_gives_up_on_null_witness :
  App.initialState Props.parseBroken (JS.Ok (Some Props.brokenText))
  = App.defaultState.
Proof.
  apply (restore_gives_up_on_null Props.parseBroken
           (JS.Ok (Some Props.brokenText)) Props.brokenText Props.brokenSnapshot
           [Browser.sampleMessage; App.JNull]);
    [reflexivity | reflexivity | reflexivity | simpl; auto].
Defined.

(** The theorem at a client that has just autosaved the sample session. *)
Lemma autosave_writes_snapshot_witness :
  App.localStorage
    (App.autosaveTick Browser.stringifySample
       (App.startup Browser.parseSample {[ App.STORAGE_KEY := Browser.sampleText ]}))
    !! App.STORAGE_KEY
  = Some (Browser.stringifySample
            (App.state
               (App.startup Browser.parseSample
                  {[ App.STORAGE_KEY := Browser.sampleText ]}))).
Proof.
  apply (proj1 (proj2 (proj2 (proj2
           (autosave_writes_snapshot Browser.stringifySample
              (App.startup Browser.parseSample
                 {[ App.STORAGE_KEY := Browser.sampleText ]})))))).
  discriminate.
Defined.

(* ===================================================================== *)
(** ** Sending a message, from the first [setState] to the last *)
(* ===================================================================== *)

Section Sending.
Import JS GeminiService Conversation.

Variable atob : string -> result string.
Variable TextDecoder_decode : list Byte.byte -> result string.
Variable generateContent : Request -> result GenerateContentResponse.

Lemma callService_resolves (st : ChatState) (text : string)
    (att : option Attachment) :
  exists response,
    callService atob TextDecoder_decode generateContent st text att = Ok response /\
    reply_text response <> EmptyString.
Proof.
  unfold callService.
  destruct (sendMessageToGemini_cases atob TextDecoder_decode generateContent
              (App.promptContext (selectedSubject st) text) (messages st) att)
    as (request & _ & ->).
  eexists. split; [reflexivity|].
  destruct (generateContent request) as [response|e]; [|discriminate].
  destruct request; cbn [readResponse].
  - apply imageResult_text_nonempty.
  - apply chatResult_text_nonempty.
Qed.

(** X14: a send always completes: whatever the backend does, once
    [handleSendMessage] is done the session is not loading any more, its
    subject is unchanged, and its messages are the earlier ones followed by
    exactly two new ones, the user message as typed (text, attachment) and a
    model message with a non-empty text and no attachment. *)
Theorem send_completes (st : ChatState) (uuids : string * string)
    (clock : Z * Z) (text : string) (att : option Attachment) :
  isLoading (handleSendMessage atob TextDecoder_decode generateContent
               st uuids clock text att) = false /\
  selectedSubject (handleSendMessage atob TextDecoder_decode generateContent
                     st uuids clock text att) = selectedSubject st /\
  exists reply,
    messages (handleSendMessage atob TextDecoder_decode generateContent
                st uuids clock text att)
    = messages st ++ [userMessage (fst uuids) (fst clock) text att; reply] /\
    role reply = model /\
    id reply = snd uuids /\
    GeminiService.text reply <> EmptyString /\
    attachment reply = None.
Proof.
  unfold handleSendMessage.
  destruct (callService_resolves st text att) as (response & -> & Hne).
  cbn [appendReply appendUser isLoading selectedSubject messages].
  repeat split.
  exists (aiMessage (snd uuids) (snd clock) response).
  rewrite <- app_assoc. repeat split. exact Hne.
Qed.


(** X15: the subject tag goes with the turn being sent only.  After a
    message was sent under a selected subject, a later request replays that
    message with its plain text, as typed, followed by the reply, while the
    new draft is the one that carries the tag. *)
Theorem subject_tag_not_replayed (st : ChatState) (subject : string)
    (uuids : string * string) (clock : Z * Z)
    (text1 text2 : string) (att1 att2 : option Attachment) :
  selectedSubject st = Some subject ->
  subject <> EmptyString ->
  exists reply contents,
    messages (handleSendMessage atob TextDecoder_decode generateContent
                st uuids clock text1 att1)
    = messages st ++ [userMessage (fst uuids) (fst clock) text1 att1; reply] /\
    requestOf atob TextDecoder_decode
      (handleSendMessage atob TextDecoder_decode generateContent
         st uuids clock text1 att1) text2 att2
    = Ok (ChatRequest contents) /\
    List.map (fun c => last (parts c)) contents
    = List.map (fun m => Some (TextPart (GeminiService.text m))) (messages st)
      ++ [Some (TextPart text1);
          Some (TextPart (GeminiService.text reply));
          Some (TextPart ("[Subject: " +:+ subject +:+ "] " +:+ text2))].
Proof.
  intros Hsubj Hne.
  unfold requestOf, handleSendMessage.
  destruct (callService_resolves st text1 att1) as (response & -> & _).
  exists (aiMessage (snd uuids) (snd clock) response).
  cbn [appendReply appendUser selectedSubject messages].
  rewrite Hsubj. unfold App.promptContext.
  destruct subject as [|ch subject]; [contradiction|]. cbn [truthy].
  set (prompt := "[Subject: " +:+ String ch subject +:+ "] " +:+ text2).
  set (history := (messages st ++ [userMessage (fst uuids) (fst clock) text1 att1])
                  ++ [aiMessage (snd uuids) (snd clock) response]).
  assert (Hp : startsWith prompt "Generate Image:" = false) by reflexivity.
  unfold buildRequest. rewrite Hp.
  destruct (historyContents_shape atob TextDecoder_decode history)
    as (cs & -> & _ & Hlast).
  destruct (currentContent_total atob TextDecoder_decode prompt att2)
    as [attached ->].
  cbn [bind]. eexists. split; [subst history; rewrite <- app_assoc; reflexivity|].
  split; [reflexivity|].
  rewrite List.map_app, Hlast. subst history.
  rewrite !List.map_app. cbn [List.map parts].
  rewrite last_snoc, <- !app_assoc. reflexivity.
Qed.


End Sending.

(** The theorem at a question asked under the subject "Taxation", with a
    backend that fails. *)
Lemma subject_tag_not_replayed_witness :
  exists reply contents,
    Conversation.messages
      (Conversation.handleSendMessage Browser.atob Browser.decodeBytes
         Props.failingBackend
         (Conversation.handleSubjectSelect "Taxation" Props.sampleSession)
         ("u1", "u2") (5%Z, 6%Z) "What is a tax credit?" None)
    = Conversation.messages
        (Conversation.handleSubjectSelect "Taxation" Props.sampleSession)
      ++ [Conversation.userMessage "u1" 5%Z "What is a tax credit?" None; reply] /\
    Conversation.requestOf Browser.atob Browser.decodeBytes
      (Conversation.handleSendMessage Browser.atob Browser.decodeBytes
         Props.failingBackend
         (Conversation.handleSubjectSelect "Taxation" Props.sampleSession)
         ("u1", "u2") (5%Z, 6%Z) "What is a tax credit?" None)
      "And a deduction?" None
    = JS.Ok (GeminiService.ChatRequest contents) /\
    List.map (fun c => last (GeminiService.parts c)) contents
    = List.map (fun m => Some (GeminiService.TextPart (GeminiService.text m)))
        (Conversation.messages
           (Conversation.handleSubjectSelect "Taxation" Props.sampleSession))
      ++ [Some (GeminiService.TextPart "What is a tax credit?");
          Some (GeminiService.TextPart (GeminiService.text reply));
          Some (GeminiService.TextPart
                  ("[Subject: " +:+ "Taxation" +:+ "] " +:+ "And a deduction?"))].
Proof.
  apply (subject_tag_not_replayed Browser.atob Browser.decodeBytes
           Props.failingBackend
           (Conversation.handleSubjectSelect "Taxation" Props.sampleSession)
           "Taxation" ("u1", "u2") (5%Z, 6%Z)
           "What is a tax credit?" "And a deduction?" None None);
    [reflexivity | discriminate].
Defined.


(* ===================================================================== *)
(** ** The composer: dictation and text extraction *)
(* ===================================================================== *)

Section ComposerDraft.
Import JS GeminiService Composer.

Lemma finalTranscript_fold (results : list SpeechResult) (acc : string) :
  fold_left (fun acc r => if isFinal r then acc +:+ transcript r else acc)
    results acc
  = acc +:+ Spec.concat (Props.finalTranscripts results).
Proof.
  revert acc. unfold Props.finalTranscripts.
  induction results as [|r results IH]; intros acc; cbn [fold_left].
  - cbn. rewrite JSFacts.append_nil_r. reflexivity.
  - rewrite IH. cbn [List.filter].
    destruct (isFinal r); cbn [List.map Spec.concat].
    + rewrite JSFacts.append_assoc. reflexivity.
    + reflexivity.
Qed.

Lemma finalTranscript_concat (resultIndex : nat) (results : list SpeechResult) :
  finalTranscript resultIndex results
  = Spec.concat (Props.finalTranscripts (drop resultIndex results)).
Proof. unfold finalTranscript. rewrite finalTranscript_fold. reflexivity. Qed.

Lemma endsWith_iff (s p : string) :
  endsWith s p = true <-> exists front, s = front +:+ p.
Proof.
  split.
  - induction s as [|c s IH]; cbn [endsWith]; intros H;
      apply orb_prop in H as [H|H]; try discriminate H.
    + apply String.eqb_eq in H. exists EmptyString. exact H.
    + apply String.eqb_eq in H. exists EmptyString. exact H.
    + destruct (IH H) as [front ->]. exists (String c front). reflexivity.
  - intros [front ->]. induction front as [|c front IH].
    + cbn [String.append]. destruct p; cbn [endsWith];
        rewrite String.eqb_refl; reflexivity.
    + cbn [String.append endsWith]. rewrite IH. apply orb_true_r.
Qed.

(** X17: dictation only appends to the draft.  Interim results and the
    results before [resultIndex] never reach it; without a final phrase the
    composer is unchanged; otherwise the final phrases, in order, are added
    after what was typed, separated by one space exactly when the draft is
    not empty and does not already end with a space. *)
Theorem dictation_appends (resultIndex : nat) (results : list SpeechResult)
    (st : State) :
  let spoken := Spec.concat (Props.finalTranscripts (drop resultIndex results)) in
  (spoken = EmptyString -> onresult resultIndex results st = st) /\
  (spoken <> EmptyString ->
   selectedAttachment (onresult resultIndex results st) = selectedAttachment st /\
   isExtracting (onresult resultIndex results st) = isExtracting st /\
   ((inputText st = EmptyString \/ exists front, inputText st = front +:+ " ") ->
    inputText (onresult resultIndex results st) = inputText st +:+ spoken) /\
   (inputText st <> EmptyString ->
    (forall front, inputText st <> front +:+ " ") ->
    inputText (onresult resultIndex results st) = inputText st +:+ " " +:+ spoken)).
Proof.
  cbv zeta. unfold onresult. rewrite finalTranscript_concat.
  set (spoken := Spec.concat (Props.finalTranscripts (drop resultIndex results))).
  split.
  - intros ->. reflexivity.
  - intros Hne. destruct spoken as [|c phrase]; [contradiction|].
    cbn [truthy selectedAttachment isExtracting inputText].
    split; [reflexivity|]. split; [reflexivity|].
    unfold appendTranscript. split.
    + intros [Hempty|Hspace].
      * rewrite Hempty. reflexivity.
      * apply endsWith_iff in Hspace. rewrite Hspace, andb_false_r. reflexivity.
    + intros Hdraft Hnospace.
      destruct (inputText st) as [|d draft] eqn:Hd; [contradiction|].
      destruct (endsWith (String d draft) " ") eqn:He.
      * apply endsWith_iff in He as [front Hfront].
        exfalso. exact (Hnospace front Hfront).
      * reflexivity.
Qed.

Section Extraction.
Variable generateContent : list Part -> result GenerateContentResponse.

(** X18: a scan asks the backend with the payload of the attached image,
    stripped of its data-URL prefix and tagged "image/jpeg", and the fixed
    instruction.  When the backend fails or answers without text the draft
    is left as it was; when it answers with a text, that text becomes the
    draft if the draft was empty and is added after a blank line otherwise.
    In every case the attachment is kept and the composer is not extracting
    any more.  Without an image attached, or while an extraction is running,
    nothing happens. *)
Theorem scan_result (st : State) :
  (scanTarget st = None ->
   handleScan (GeminiOcr.extractTextFromImage generateContent) st = st) /\
  (forall image,
      scanTarget st = Some image ->
      let asked := generateContent [InlineData "image/jpeg" (base64Data image);
                                    TextPart GeminiOcr.ocrInstruction] in
      let st' := handleScan (GeminiOcr.extractTextFromImage generateContent) st in
      selectedAttachment st' = selectedAttachment st /\
      isExtracting st' = false /\
      ((exists e, asked = Throw e) -> inputText st' = inputText st) /\
      (forall response,
          asked = Ok response ->
          response_text response = None \/ response_text response = Some EmptyString ->
          inputText st' = inputText st) /\
      (forall response scanned,
          asked = Ok response ->
          response_text response = Some scanned ->
          scanned <> EmptyString ->
          (inputText st = EmptyString -> inputText st' = scanned) /\
          (inputText st <> EmptyString ->
           inputText st' = inputText st +:+ LF +:+ LF +:+ scanned))).
Proof.
  unfold handleScan. split.
  - intros ->. reflexivity.
  - intros image ->. cbv zeta.
    unfold scanSettled, GeminiOcr.extractTextFromImage.
    cbn [selectedAttachment isExtracting inputText].
    split; [reflexivity|]. split; [reflexivity|].
    split; [|split].
    + intros [e ->]. reflexivity.
    + intros response -> [Hnone|Hempty]; cbn [bind tryCatch].
      * rewrite Hnone. reflexivity.
      * rewrite Hempty. reflexivity.
    + intros response scanned -> Htext Hne. cbn [bind tryCatch].
      rewrite Htext. destruct scanned as [|c scanned]; [contradiction|].
      cbn [orElse truthy]. unfold appendScanned. split.
      * intros ->. reflexivity.
      * intros Hdraft. destruct (inputText st) as [|d draft]; [contradiction|].
        cbn [truthy]. rewrite !JSFacts.append_assoc. reflexivity.
Qed.

End Extraction.

End ComposerDraft.

(** The theorem at two final phrases of which the first came earlier. *)
Lemma dictation_appends_witness :
  Composer.inputText (Composer.onresult 1 Props.sampleSpeech Props.sampleComposer)
  = "Post this entry:" +:+ " " +:+ "to the ledger".
Proof.
  refine (proj2 (proj2 (proj2 (proj2 (dictation_appends 1 Props.sampleSpeech
                                         Props.sampleComposer) _))) _ _).
  - vm_compute. discriminate.
  - discriminate.
  - intros front H.
    assert (E : Composer.endsWith "Post this entry:" " " = true)
      by (apply endsWith_iff; exists front; exact H).
    discriminate E.
Defined.

(** The theorem at the PNG attached to a typed draft. *)
Lemma scan_result_witness :
  Composer.inputText
    (Composer.handleScan (GeminiOcr.extractTextFromImage Props.readingBackend)
       Props.sampleComposer)
  = "Post this entry:" +:+ JS.LF +:+ JS.LF +:+ "Dr Cash 500".
Proof.
  pose proof (proj2 (scan_result Props.readingBackend Props.sampleComposer)
                "data:image/png;base64,iVBORw0KGgo=" eq_refl)
    as (_ & _ & _ & _ & Hread).
  refine (proj2 (Hread _ "Dr Cash 500" eq_refl eq_refl _) _); discriminate.
Defined.

(* ===================================================================== *)
(** ** Highlighting the search term in a message *)
(* ===================================================================== *)

Section Highlighting.
Import JS ChatMessage.

Lemma not_syntax_char (c : ascii) :
  isSyntaxChar c = false ->
  Ascii.eqb c "\"%char = false /\ Ascii.eqb c ")"%char = false.
Proof.
  unfold isSyntaxChar. cbn [existsb]. intros H.
  repeat (apply orb_false_elim in H as [? H]). split; assumption.
Qed.

Lemma literalBody_escapeTerm (term : string) :
  literalBody (escapeTerm term +:+ ")") = Some (list_ascii_of_string term).
Proof.
  induction term as [|c term IH]; [reflexivity|].
  cbn [escapeTerm list_ascii_of_string].
  destruct (isSyntaxChar c) eqn:Hc.
  - cbn [String.append literalBody]. rewrite Ascii.eqb_refl, Hc, IH. reflexivity.
  - destruct (not_syntax_char c Hc) as [Hb Hp].
    cbn [String.append literalBody]. rewrite Hb, Hp, Hc, IH. reflexivity.
Qed.

Lemma literalGroup_patternSource (term : string) :
  literalGroup (patternSource term) = Some (list_ascii_of_string term).
Proof.
  unfold patternSource, literalGroup. cbn [String.append].
  rewrite Ascii.eqb_refl. apply literalBody_escapeTerm.
Qed.

Lemma matchesAt_startsWith (term text : string) :
  matchesAt (list_ascii_of_string term) text
  = startsWith (toLowerCase text) (toLowerCase term).
Proof.
  revert text. induction term as [|a term IH]; intros text; [reflexivity|].
  cbn [list_ascii_of_string matchesAt toLowerCase startsWith].
  destruct text as [|c rest]; [reflexivity|].
  cbn [toLowerCase]. rewrite IH. reflexivity.
Qed.

(** X19: escaping makes every search term a literal pattern: whatever
    characters the term holds, parentheses, dots and backslashes included,
    the source built around the escaped term is a well-formed group that
    stands for exactly the characters of the term, in order; so the pattern
    matches at the start of a text exactly when the text starts with the
    term, letter case ignored. *)
Theorem escaped_term_is_literal (term text : string) :
  exists atoms,
    literalGroup (patternSource term) = Some atoms /\
    atoms = list_ascii_of_string term /\
    matchesAt atoms text = startsWith (toLowerCase text) (toLowerCase term).
Proof.
  exists (list_ascii_of_string term).
  split; [apply literalGroup_patternSource|].
  split; [reflexivity|apply matchesAt_startsWith].
Qed.

Lemma takeChars_substring (n : nat) (s : string) :
  takeChars n s +:+ substring s n = s.
Proof.
  revert s. induction n as [|n IH]; intros s; [reflexivity|].
  destruct s as [|c s]; [reflexivity|].
  cbn [takeChars substring String.append]. rewrite IH. reflexivity.
Qed.

(** The parts of a split spell the text. *)
Lemma concat_splitFrom (fuel : nat) (atoms : list ascii) (text seg : string) :
  Spec.concat (splitFrom fuel atoms text seg) = seg +:+ text.
Proof.
  revert text seg. induction fuel as [|fuel IH]; intros text seg.
  - cbn. apply JSFacts.append_nil_r.
  - destruct text as [|c rest]; cbn [splitFrom].
    + cbn. reflexivity.
    + destruct (matchesAt atoms (String c rest)).
      * cbn [Spec.concat]. rewrite IH. cbn [String.append].
        rewrite takeChars_substring. reflexivity.
      * rewrite IH, JSFacts.append_assoc. reflexivity.
Qed.

(** One more unit of fuel than the length of the text changes nothing. *)
Lemma splitFrom_fuel (fuel : nat) (atoms : list ascii) (text seg : string) :
  atoms <> [] -> String.length text <= fuel ->
  splitFrom (S fuel) atoms text seg = splitFrom fuel atoms text seg.
Proof.
  intros Hatoms. revert text seg.
  induction fuel as [|fuel IH]; intros text seg Hlen.
  - destruct text; [|simpl in Hlen; lia].
    cbn. rewrite JSFacts.append_nil_r. reflexivity.
  - destruct text as [|c rest]; [reflexivity|].
    cbn [String.length] in Hlen.
    change (splitFrom (S (S fuel)) atoms (String c rest) seg)
      with (if matchesAt atoms (String c rest)
            then seg :: takeChars (length atoms) (String c rest) ::
                 splitFrom (S fuel) atoms
                   (substring (String c rest) (length atoms)) EmptyString
            else splitFrom (S fuel) atoms rest (seg +:+ String c EmptyString)).
    change (splitFrom (S fuel) atoms (String c rest) seg)
      with (if matchesAt atoms (String c rest)
            then seg :: takeChars (length atoms) (String c rest) ::
                 splitFrom fuel atoms
                   (substring (String c rest) (length atoms)) EmptyString
            else splitFrom fuel atoms rest (seg +:+ String c EmptyString)).
    destruct (matchesAt atoms (String c rest)).
    + rewrite IH; [reflexivity|].
      rewrite length_substring. cbn [String.length].
      destruct atoms; [contradiction|]. cbn [length]. lia.
    + rewrite IH; [reflexivity|lia].
Qed.

Lemma matched_text (term text : string) :
  matchesAt (list_ascii_of_string term) text = true ->
  toLowerCase (takeChars (length (list_ascii_of_string term)) text)
  = toLowerCase term.
Proof.
  revert text. induction term as [|a term IH]; intros text; [reflexivity|].
  cbn [list_ascii_of_string matchesAt length].
  destruct text as [|c rest]; [discriminate|].
  intros H. apply andb_prop in H as [Hac Hrest].
  cbn [takeChars toLowerCase]. rewrite (IH _ Hrest).
  unfold sameLetter in Hac. apply Ascii.eqb_eq in Hac. rewrite Hac. reflexivity.
Qed.

Lemma occursIn_concat (p : string) (l : list string) :
  In p l -> Spec.occursIn p (Spec.concat l).
Proof.
  induction l as [|x l IH]; [contradiction|].
  intros [->|Hin]; cbn [Spec.concat].
  - exists EmptyString, (Spec.concat l). reflexivity.
  - destruct (IH Hin) as (pre & post & ->).
    exists (x +:+ pre), post. rewrite JSFacts.append_assoc. reflexivity.
Qed.

(** A text that holds the term, letter case ignored, has a marked part. *)
Lemma splitFrom_marks (term : string) (fuel : nat) (text seg : string) :
  term <> EmptyString ->
  String.length text <= fuel ->
  includes (toLowerCase text) (toLowerCase term) = true ->
  exists part,
    In part (splitFrom fuel (list_ascii_of_string term) text seg) /\
    toLowerCase part = toLowerCase term.
Proof.
  intros Hterm. revert text seg.
  induction fuel as [|fuel IH]; intros text seg Hlen Hinc.
  - destruct text; [|simpl in Hlen; lia].
    destruct term; [contradiction|]. discriminate Hinc.
  - destruct text as [|c rest].
    + destruct term; [contradiction|]. discriminate Hinc.
    + cbn [splitFrom].
      destruct (matchesAt (list_ascii_of_string term) (String c rest)) eqn:Hm.
      * eexists. split; [right; left; reflexivity|].
        apply matched_text, Hm.
      * rewrite matchesAt_startsWith in Hm.
        cbn [toLowerCase includes] in Hinc.
        change (String (lowerChar c) (toLowerCase rest))
          with (toLowerCase (String c rest)) in Hinc.
        rewrite Hm in Hinc. cbn [orb] in Hinc.
        cbn [String.length] in Hlen.
        apply (IH rest _ ltac:(lia) Hinc).
Qed.

(** X20: highlighting never changes what is shown: whatever the text and
    the term, the pieces rendered for a message, marked or not, spell the
    text of the message when put one after the other; and with an empty
    term or text there is the one unmarked piece. *)
Theorem highlight_preserves_text (text term : string) :
  Spec.concat (List.map piece (HighlightText text term)) = text /\
  (term = EmptyString \/ text = EmptyString ->
   HighlightText text term = [{| marked := false; piece := text |}]).
Proof.
  unfold HighlightText. split.
  - destruct (negb (truthy term) || negb (truthy text));
      [cbn; apply JSFacts.append_nil_r|].
    rewrite literalGroup_patternSource.
    rewrite List.map_map. cbn [piece]. rewrite List.map_id.
    unfold splitByGroup. apply concat_splitFrom.
  - intros [-> | ->]; [reflexivity|].
    rewrite orb_true_r. reflexivity.
Qed.

(** X21: on texts and terms of code units 0..255, where the lower case
    used by the search and the letter classes of the flag [i] used by the
    highlighting coincide, search and highlighting agree on user messages:
    a message that the search keeps under a non-blank term shows at least
    one marked piece, and a marked piece is only ever shown in a text that
    contains the term, letter case ignored.  (Beyond that range the two
    notions of letter case differ and the statement is not made.) *)
Theorem search_hit_is_marked (text term : string) :
  (forall ms m,
      trim term <> EmptyString ->
      In m (App.displayedMessages ms term) ->
      exists p, In p (userText (GeminiService.text m) term) /\ marked p = true) /\
  (forall p,
      In p (userText text term) -> marked p = true ->
      Spec.containsIgnoringCase text term).
Proof.
  split.
  - intros ms m Htrim Hin.
    unfold App.displayedMessages in Hin.
    destruct (truthy (trim term)) eqn:Ht;
      [|apply trim_truthy in Ht; contradiction].
    apply List.filter_In in Hin as [_ Hinc].
    assert (Hterm : term <> EmptyString) by (intros ->; discriminate Ht).
    assert (Htext : GeminiService.text m <> EmptyString).
    { intros E. rewrite E in Hinc. destruct term; [contradiction|].
      discriminate Hinc. }
    unfold userText, HighlightText.
    destruct term as [|t term]; [contradiction|].
    destruct (GeminiService.text m) as [|c body] eqn:Hbody; [contradiction|].
    cbn [truthy negb orb]. rewrite literalGroup_patternSource.
    destruct (splitFrom_marks (String t term)
                (String.length (String c body)) (String c body) EmptyString
                Hterm (le_n _) Hinc) as (part & Hpart & Hlower).
    exists {| marked := String.eqb (toLowerCase part) (toLowerCase (String t term));
              piece := part |}.
    split.
    + apply (List.in_map
               (fun part => {| marked := String.eqb (toLowerCase part)
                                           (toLowerCase (String t term));
                               piece := part |}) _ _ Hpart).
    + cbn [marked]. rewrite Hlower. apply String.eqb_refl.
  - intros p Hin Hmarked. unfold userText, HighlightText in Hin.
    destruct (truthy term);
      [|destruct Hin as [<-|[]]; discriminate Hmarked].
    destruct (negb true || negb (truthy text));
      [destruct Hin as [<-|[]]; discriminate Hmarked|].
    rewrite literalGroup_patternSource in Hin.
    apply List.in_map_iff in Hin as (part & <- & Hpart).
    cbn [marked] in Hmarked. apply String.eqb_eq in Hmarked.
    apply occursIn_concat in Hpart.
    unfold splitByGroup in Hpart. rewrite concat_splitFrom in Hpart.
    cbn [String.append] in Hpart. destruct Hpart as (pre & post & Htext).
    unfold Spec.containsIgnoringCase. rewrite <- Hmarked.
    exists (toLowerCase pre), (toLowerCase post).
    rewrite Htext, !toLowerCase_app. reflexivity.
Qed.

End Highlighting.

(** The theorem at the search for "depreciation". *)
Lemma search_hit_is_marked_witness :
  exists p,
    In p (ChatMessage.userText
            (GeminiService.text Browser.sampleUserMessage) "depreciation") /\
    ChatMessage.marked p = true.
Proof.
  apply (proj1 (search_hit_is_marked EmptyString "depreciation")
           [Browser.sampleUserMessage] Browser.sampleUserMessage).
  - vm_compute. discriminate.
  - left. reflexivity.
Defined.

(* ===================================================================== *)
(** ** A reply that arrives after the conversation was cleared *)
(* ===================================================================== *)

Section LateReply.
Import JS App AppEvents.

Variable JSON_stringify : ChatState -> string.

(** X22: the reply of a pending request is not dropped when the
    conversation is cleared meanwhile, by [goHome] or by a confirmed
    [resetChat]: it becomes the only message of the session, which stops
    loading; and the next autosave stores that session, so the snapshot
    from before [goHome] is replaced by one that holds the reply alone. *)
Theorem late_reply_replaces_snapshot (w : World) (aiMsg : JSValue) (confirmed : bool) :
  let cleared := if confirmed then resetChat true w else goHome w in
  let arrived := replyArrives aiMsg cleared in
  messages (state arrived) = [aiMsg] /\
  isLoading (state arrived) = false /\
  selectedSubject (state arrived) = JNull /\
  localStorage (autosaveTick JSON_stringify arrived) !! STORAGE_KEY
  = Some (JSON_stringify (state arrived)).
Proof.
  cbv zeta. destruct confirmed;
    unfold replyArrives, resetChat, goHome, autosaveTick;
    cbn [state messages isLoading selectedSubject localStorage app length
         Nat.ltb Nat.leb defaultState];
    (repeat split; try reflexivity); apply lookup_insert_eq.
Qed.

End LateReply.
